(** * Last War extraction tools: aggregation, validation, export, resolver

    A shallow embedding of the TypeScript sources
    - [processors/dataProcessor.ts]  (module [DataProcessor], and module
      [DataProcessorStore] for the same code over shared mutable arrays),
    - [utils/exportUtils.ts]         (module [ExportUtils]),
    - [utils/fileSystem.ts]          (modules [FileSystemUtils] and
      [FileSystemUtilsMulti], the two copies of the file in the repository),
    together with the parts of the JavaScript runtime they call
    ([String.prototype] case mapping, the two regular expressions,
    [Array.prototype.sort], [Date]).

    Conventions of the embedding.
    - JavaScript strings are [string]s; case mapping and the regular
      expressions act on the ASCII letters and digits, which is all the
      patterns of the sources mention.
    - JavaScript numbers that the data model declares integral (ranks,
      points, week numbers, sizes, time values) are [Z]; a number read
      from digits by [parseInt] is rounded as a double is, so that digit
      strings the code cannot tell apart denote one number here too.
    - A thrown exception is the [Throw] arm of [result].
    - [Array.prototype.sort] is stable; with a comparator of the form
      [key a - key b] its result is the stable insertion sort below. *)

From Stdlib Require Import ZArith List String Ascii Bool Lia.
From Stdlib Require Import Sorting.Permutation Sorting.Sorted.
From stdpp Require Import strings gmap.
Import ListNotations.

Local Open Scope string_scope.
Local Open Scope list_scope.
Local Open Scope Z_scope.

(* ================================================================== *)
(** * Part I: definitions *)
(* ================================================================== *)

(** ** Exceptions *)

Inductive exn : Type :=
| Error (message : string)
| RangeError (message : string).

Inductive result (A : Type) : Type :=
| Ok (value : A)
| Throw (e : exn).
Arguments Ok {A} value.
Arguments Throw {A} e.

Definition bind {A B : Type} (m : result A) (k : A -> result B) : result B :=
  match m with
  | Ok a => k a
  | Throw e => Throw e
  end.

(** ** Strings *)

Module JsString.

Definition code (c : ascii) : Z := Z.of_N (N_of_ascii c).

Definition isDigit (c : ascii) : bool := (48 <=? code c) && (code c <=? 57).
Definition isUpper (c : ascii) : bool := (65 <=? code c) && (code c <=? 90).
Definition isLower (c : ascii) : bool := (97 <=? code c) && (code c <=? 122).

Definition toLowerChar (c : ascii) : ascii :=
  if isUpper c then ascii_of_N (N_of_ascii c + 32) else c.
Definition toUpperChar (c : ascii) : ascii :=
  if isLower c then ascii_of_N (N_of_ascii c - 32) else c.

Fixpoint toLowerCase (s : string) : string :=
  match s with
  | EmptyString => EmptyString
  | String c r => String (toLowerChar c) (toLowerCase r)
  end.

Fixpoint toUpperCase (s : string) : string :=
  match s with
  | EmptyString => EmptyString
  | String c r => String (toUpperChar c) (toUpperCase r)
  end.

(** [s.charAt(0)] and [s.slice(1)]. *)
Definition charAt0 (s : string) : string :=
  match s with
  | EmptyString => EmptyString
  | String c _ => String c EmptyString
  end.

Definition slice1 (s : string) : string :=
  match s with
  | EmptyString => EmptyString
  | String _ r => r
  end.

Definition isEmpty (s : string) : bool :=
  match s with
  | EmptyString => true
  | String _ _ => false
  end.

Fixpoint allDigits (s : string) : bool :=
  match s with
  | EmptyString => true
  | String c r => isDigit c && allDigits r
  end.

(** The longest prefix of decimal digits: what a greedy [\d+] or [\d*]
    consumes. *)
Fixpoint takeDigits (s : string) : string :=
  match s with
  | EmptyString => EmptyString
  | String c r => if isDigit c then String c (takeDigits r) else EmptyString
  end.

(** The literal [week] under the [i] flag, at the start of [s]; returns
    what follows it. *)
Definition stripWeek (s : string) : option string :=
  match s with
  | String a (String b (String c (String d r))) =>
      if Ascii.eqb (toLowerChar a) "w"%char && Ascii.eqb (toLowerChar b) "e"%char
         && Ascii.eqb (toLowerChar c) "e"%char && Ascii.eqb (toLowerChar d) "k"%char
      then Some r else None
  | _ => None
  end.

(** [s.match(/week(\d+)/i)]: the first capture group of the leftmost
    match, if there is one. *)
Fixpoint matchWeekDigits (s : string) : option string :=
  match s with
  | EmptyString => None
  | String _ r =>
      match stripWeek s with
      | Some rest =>
          let ds := takeDigits rest in
          if isEmpty ds then matchWeekDigits r else Some ds
      | None => matchWeekDigits r
      end
  end.

(** The integer a string of decimal digits denotes. *)
Fixpoint parseDigits (acc : Z) (ds : string) : Z :=
  match ds with
  | EmptyString => acc
  | String c r => parseDigits (10 * acc + (code c - 48)) r
  end.

(** The number a non-negative integer becomes: the nearest double, ties
    to the even significand.  The integers below 2^53 are their own
    doubles; what rounds past the largest double is Infinity, for which
    2^1024 stands (it exceeds every double, and the difference of two
    Infinities, NaN, compares as 0 in a sort). *)
Definition toDouble (n : Z) : Z :=
  if n <? 2 ^ 53 then n
  else
    let e := Z.log2 n - 52 in
    let q := n / 2 ^ e in
    let r := n mod 2 ^ e in
    let half := 2 ^ (e - 1) in
    let q' := if (half <? r) || ((r =? half) && Z.odd q) then q + 1 else q in
    Z.min (q' * 2 ^ e) (2 ^ 1024).

(** [parseInt(ds, 10)] on a string of decimal digits. *)
Definition parseInt (ds : string) : Z := toDouble (parseDigits 0 ds).

Definition digitChar (d : Z) : ascii := ascii_of_N (Z.to_N (48 + d)).

(** Decimal rendering on exactly [w] digits (the low-order ones). *)
Fixpoint decPad (w : nat) (n : Z) : string :=
  match w with
  | O => EmptyString
  | S w' => decPad w' (n / 10) +:+ String (digitChar (n mod 10)) EmptyString
  end.

(** [s.split(c)[0]]: what precedes the first occurrence of [c]. *)
Fixpoint beforeFirst (c : ascii) (s : string) : string :=
  match s with
  | EmptyString => EmptyString
  | String a r => if Ascii.eqb a c then EmptyString else String a (beforeFirst c r)
  end.

(** [String(n)] for an integral number. *)
Fixpoint natDigits (fuel : nat) (n : Z) : string :=
  match fuel with
  | O => EmptyString
  | S f => if n <? 10 then String (digitChar n) EmptyString
           else natDigits f (n / 10) +:+ String (digitChar (n mod 10)) EmptyString
  end.

Definition ofZ (n : Z) : string :=
  if n <? 0 then "-" +:+ natDigits (S (Z.to_nat (Z.log2 (- n)))) (- n)
  else natDigits (S (Z.to_nat (Z.log2 n))) n.

End JsString.

(** ** [Array.prototype.sort] *)

Section Sort.
Context {A : Type}.
Variable cmp : A -> A -> Z.

(** [x] goes before the first element it does not exceed, hence before
    every element that was behind it with an equal key. *)
Fixpoint insertSorted (x : A) (l : list A) : list A :=
  match l with
  | [] => [x]
  | y :: l' => if cmp x y <=? 0 then x :: y :: l' else y :: insertSorted x l'
  end.

Fixpoint sort (l : list A) : list A :=
  match l with
  | [] => []
  | x :: l' => insertSorted x (sort l')
  end.
End Sort.

(** The default comparator of [sort()] on strings: code-unit order. *)
Definition compareStrings (a b : string) : Z :=
  match String.compare a b with
  | Lt => -1
  | Eq => 0
  | Gt => 1
  end.

(** ** [Date]

    Time values are milliseconds since 1970-01-01T00:00:00Z; an invalid
    date (time value NaN) is [None].  Day numbers and calendar dates are
    related by the usual proleptic-Gregorian formulas.  Local time is
    described by the two offsets the language specification uses: the
    offset in force at a UTC instant and the offset in force at a local
    instant. *)

Module JsDate.

Definition msPerDay : Z := 86400000.
Definition maxTime : Z := 8640000000000000.

Definition Day (t : Z) : Z := t / msPerDay.
Definition TimeWithinDay (t : Z) : Z := t mod msPerDay.

(** Day number of the civil date [y]-[m]-[d], with [m] in 1..12. *)
Definition daysFromCivil (y m d : Z) : Z :=
  let y' := if m <=? 2 then y - 1 else y in
  let era := y' / 400 in
  let yoe := y' - era * 400 in
  let doy := (153 * (if 2 <? m then m - 3 else m + 9) + 2) / 5 + d - 1 in
  let doe := yoe * 365 + yoe / 4 - yoe / 100 + doy in
  era * 146097 + doe - 719468.

(** Civil date (year, month in 1..12, day of month) of a day number. *)
Definition civilFromDays (z : Z) : Z * Z * Z :=
  let z' := z + 719468 in
  let era := z' / 146097 in
  let doe := z' - era * 146097 in
  let yoe := (doe - doe / 1460 + doe / 36524 - doe / 146096) / 365 in
  let y := yoe + era * 400 in
  let doy := doe - (365 * yoe + yoe / 4 - yoe / 100) in
  let mp := (5 * doy + 2) / 153 in
  let d := doy - (153 * mp + 2) / 5 + 1 in
  let m := if mp <? 10 then mp + 3 else mp - 9 in
  (if m <=? 2 then y + 1 else y, m, d).

Definition YearFromTime (t : Z) : Z := let '(y, _, _) := civilFromDays (Day t) in y.
(** Months are numbered from 0 in the [Date] interface. *)
Definition MonthFromTime (t : Z) : Z := let '(_, m, _) := civilFromDays (Day t) in m - 1.
Definition DateFromTime (t : Z) : Z := let '(_, _, d) := civilFromDays (Day t) in d.

Definition MakeDay (year month date : Z) : Z :=
  daysFromCivil (year + month / 12) (month mod 12 + 1) 1 + date - 1.
Definition MakeDate (day time : Z) : Z := day * msPerDay + time.
Definition TimeClip (t : Z) : option Z :=
  if Z.abs t <=? maxTime then Some t else None.

Record TimeZone : Type := {
  offsetAtUTC : Z -> Z;
  offsetAtLocal : Z -> Z
}.

Definition LocalTime (tz : TimeZone) (t : Z) : Z := t + offsetAtUTC tz t.
Definition UTC (tz : TimeZone) (t : Z) : Z := t - offsetAtLocal tz t.

(** A zone whose offset never changes. *)
Definition fixedZone (offset : Z) : TimeZone :=
  {| offsetAtUTC := fun _ => offset; offsetAtLocal := fun _ => offset |}.

(** [new Date('2024-01-01')]: a date-only form denotes UTC midnight. *)
Definition date_2024_01_01 : Z := MakeDate (MakeDay 2024 0 1) 0.

Definition getDate (tz : TimeZone) (tv : Z) : Z := DateFromTime (LocalTime tz tv).

Definition setDate (tz : TimeZone) (tv : Z) (dt : Z) : option Z :=
  let t := LocalTime tz tv in
  let newDate := MakeDate (MakeDay (YearFromTime t) (MonthFromTime t) dt) (TimeWithinDay t) in
  TimeClip (UTC tz newDate).

(** Years 0..9999 print on four digits, the others signed on six. *)
Definition isoYear (y : Z) : string :=
  if (0 <=? y) && (y <=? 9999) then JsString.decPad 4 y
  else (if y <? 0 then "-" else "+") +:+ JsString.decPad 6 (Z.abs y).

Definition isoDate (ymd : Z * Z * Z) : string :=
  let '(y, m, d) := ymd in
  isoYear y +:+ "-" +:+ JsString.decPad 2 m +:+ "-" +:+ JsString.decPad 2 d.

Definition isoTime (ms : Z) : string :=
  JsString.decPad 2 (ms / 3600000) +:+ ":" +:+ JsString.decPad 2 (ms / 60000 mod 60)
  +:+ ":" +:+ JsString.decPad 2 (ms / 1000 mod 60) +:+ "." +:+ JsString.decPad 3 (ms mod 1000).

Definition toISOString (tv : option Z) : result string :=
  match tv with
  | None => Throw (RangeError "Invalid time value")
  | Some t =>
      Ok (isoDate (civilFromDays (Day t)) +:+ "T" +:+ isoTime (TimeWithinDay t) +:+ "Z")
  end.

End JsDate.

(** ** schema.ts *)

Definition DayOfWeek_MONDAY : string := "Monday".
Definition DayOfWeek_TUESDAY : string := "Tuesday".
Definition DayOfWeek_WEDNESDAY : string := "Wednesday".
Definition DayOfWeek_THURSDAY : string := "Thursday".
Definition DayOfWeek_FRIDAY : string := "Friday".
Definition DayOfWeek_SATURDAY : string := "Saturday".
Definition DayOfWeek_WEEKLY : string := "Weekly".

(** [Object.values(DayOfWeek)]. *)
Definition DayOfWeek_values : list string :=
  [DayOfWeek_MONDAY; DayOfWeek_TUESDAY; DayOfWeek_WEDNESDAY; DayOfWeek_THURSDAY;
   DayOfWeek_FRIDAY; DayOfWeek_SATURDAY; DayOfWeek_WEEKLY].

Definition includesString (l : list string) (s : string) : bool :=
  existsb (String.eqb s) l.

Record RankingEntry : Type := {
  rank : Z;
  commanderName : string;
  points : Z
}.

Record DayData : Type := {
  day : string;
  entries : list RankingEntry
}.

Record WeekData : Type := {
  weekNumber : Z;
  weekDate : string;
  dailyData : list DayData;
  weeklyData : list RankingEntry
}.

Record Metadata : Type := {
  totalWeeks : Z;
  totalScreenshots : Z;
  extractedAt : string
}.

Record ExtractedData : Type := {
  weeks : list WeekData;
  metadata : Metadata
}.

Module ScreenshotFile.
Record t : Type := {
  fileName : string;
  filePath : string;
  week : string;
  day : string;
  size : Z;
  createdAt : Z
}.
End ScreenshotFile.

Record ProcessingResult : Type := {
  file : ScreenshotFile.t;
  extracted : list RankingEntry;
  success : bool;
  error : option string;
  processingTime : Z
}.

(** The assignments [weekData.dailyData = v] and [weekData.weeklyData = v]. *)
Definition setDailyData (w : WeekData) (v : list DayData) : WeekData :=
  {| weekNumber := weekNumber w; weekDate := weekDate w;
     dailyData := v; weeklyData := weeklyData w |}.

Definition setWeeklyData (w : WeekData) (v : list RankingEntry) : WeekData :=
  {| weekNumber := weekNumber w; weekDate := weekDate w;
     dailyData := dailyData w; weeklyData := v |}.

(** The table [dayOrder] with its [|| 999] default, shared by
    [DataProcessor.sortDailyData] and [FileSystemUtils.compareDays].  The
    table is read as the finite map of its seven keys; a label naming a
    property every JavaScript object inherits (after normalisation only
    [__proto__] can) is outside the model. *)
Definition dayOrder (d : string) : Z :=
  if String.eqb d DayOfWeek_MONDAY then 1
  else if String.eqb d DayOfWeek_TUESDAY then 2
  else if String.eqb d DayOfWeek_WEDNESDAY then 3
  else if String.eqb d DayOfWeek_THURSDAY then 4
  else if String.eqb d DayOfWeek_FRIDAY then 5
  else if String.eqb d DayOfWeek_SATURDAY then 6
  else if String.eqb d DayOfWeek_WEEKLY then 7
  else 999.

(** The comparator [(a, b) => a.rank - b.rank]. *)
Definition compareRank (a b : RankingEntry) : Z := rank a - rank b.

(** The results of [validateWeekData] and [getDataSummary]. *)
Record ValidationResult : Type := {
  valid : bool;
  issues : list string
}.

Record DataSummary : Type := {
  dayCount : Z;
  entryCount : Z;
  hasWeeklyData : bool
}.

(** ** processors/dataProcessor.ts *)

Module DataProcessor.

Definition extractWeekNumber (weekDir : string) : Z :=
  match JsString.matchWeekDigits weekDir with
  | Some ds => JsString.parseInt ds
  | None => 0
  end.

Definition calculateWeekStartDate (tz : JsDate.TimeZone) (weekDir : string)
  : result string :=
  let weekNumber := extractWeekNumber weekDir in
  let baseDate := JsDate.date_2024_01_01 in
  let baseDate' := JsDate.setDate tz baseDate (JsDate.getDate tz baseDate + (weekNumber - 1) * 7) in
  bind (JsDate.toISOString baseDate') (fun iso => Ok (JsString.beforeFirst "T" iso)).

Definition normalizeDayName (dayName : string) : string :=
  let normalized :=
    JsString.toUpperCase (JsString.charAt0 dayName)
    +:+ JsString.toLowerCase (JsString.slice1 dayName) in
  let validDays := DayOfWeek_values in
  let matchingDay :=
    find (fun day => String.eqb (JsString.toLowerCase day) (JsString.toLowerCase normalized))
         validDays in
  match matchingDay with
  | Some d => d
  | None => normalized
  end.

(** The merge of one result into one day's entries (lines 83-87). *)
Definition mergeEntries (existing extractedEntries : list RankingEntry)
  : list RankingEntry :=
  let existingRanks : gset Z := list_to_set (map rank existing) in
  let newEntries :=
    List.filter (fun e => negb (bool_decide (rank e ∈ existingRanks))) extractedEntries in
  sort compareRank (existing ++ newEntries).

(** In-place update of the first day whose name is [dayName], the one
    [find] returns. *)
Fixpoint updateDay (dayName : string) (f : list RankingEntry -> list RankingEntry)
  (days : list DayData) : list DayData :=
  match days with
  | [] => []
  | d :: rest =>
      if String.eqb (day d) dayName
      then {| day := day d; entries := f (entries d) |} :: rest
      else d :: updateDay dayName f rest
  end.

Definition addResultToWeekData (weekData : WeekData) (result : ProcessingResult)
  : WeekData :=
  let dayName := normalizeDayName (ScreenshotFile.day (file result)) in
  if String.eqb dayName DayOfWeek_WEEKLY then
    setWeeklyData weekData (sort compareRank (weeklyData weekData ++ extracted result))
  else
    let days :=
      match find (fun d => String.eqb (day d) dayName) (dailyData weekData) with
      | Some _ => dailyData weekData
      | None => dailyData weekData ++ [{| day := dayName; entries := [] |}]
      end in
    setDailyData weekData
      (updateDay dayName (fun es => mergeEntries es (extracted result)) days).

Definition sortDailyData (days : list DayData) : list DayData :=
  sort (fun a b => dayOrder (day a) - dayOrder (day b)) days.

(** [successfulResults[0]?.file.week || 'week1'] *)
Definition firstWeekName (successfulResults : list ProcessingResult) : string :=
  match successfulResults with
  | r :: _ =>
      if JsString.isEmpty (ScreenshotFile.week (file r)) then "week1"
      else ScreenshotFile.week (file r)
  | [] => "week1"
  end.

Definition noSuccessfulResults : exn := Error "No successful results to process".

(** [tz] is the local time zone of the process and [now] the value of
    [new Date().toISOString()] at the time of the call.  The warnings
    printed for the skipped results are not part of the value. *)
Definition processResults (tz : JsDate.TimeZone) (now : string)
  (results : list ProcessingResult) : result ExtractedData :=
  let successfulResults := List.filter success results in
  if (length successfulResults =? 0)%nat then Throw noSuccessfulResults
  else
    let weekName := firstWeekName successfulResults in
    let weekNumber := extractWeekNumber weekName in
    let totalScreenshots := Z.of_nat (length successfulResults) in
    bind (calculateWeekStartDate tz weekName) (fun weekDate =>
      let weekData :=
        {| weekNumber := weekNumber; weekDate := weekDate;
           dailyData := []; weeklyData := [] |} in
      let weekData := fold_left addResultToWeekData successfulResults weekData in
      let weekData := setDailyData weekData (sortDailyData (dailyData weekData)) in
      Ok {| weeks := [weekData];
            metadata := {| totalWeeks := 1;
                           totalScreenshots := totalScreenshots;
                           extractedAt := now |} |}).

(** *** Validation and summary *)

(** [new Set(ranks).size] *)
Definition uniqueRanksSize (ranks : list Z) : nat :=
  size (list_to_set ranks : gset Z).

(** The body of the [forEach] callback: the messages it pushes for one
    day, in order. *)
Definition dayIssues (d : DayData) : list string :=
  (if JsString.isEmpty (day d) || negb (includesString DayOfWeek_values (day d))
   then ["Invalid day name: " +:+ day d] else [])
  ++
  (if (length (entries d) =? 0)%nat
   then ["No entries found for day: " +:+ day d]
   else
     let ranks := map rank (entries d) in
     if negb (length ranks =? uniqueRanksSize ranks)%nat
     then ["Duplicate ranks found for day: " +:+ day d] else []).

Definition validateWeekData (weekData : WeekData) : ValidationResult :=
  let issues :=
    (if weekNumber weekData <=? 0
     then ["Invalid week number: " +:+ JsString.ofZ (weekNumber weekData)] else [])
    ++ (if JsString.isEmpty (weekDate weekData) then ["Missing week date"] else [])
    ++ (if (length (dailyData weekData) =? 0)%nat
        then ["No daily data found"]
        else flat_map dayIssues (dailyData weekData)) in
  {| valid := (length issues =? 0)%nat; issues := issues |}.

Definition getDataSummary (weekData : WeekData) : DataSummary :=
  {| dayCount := Z.of_nat (length (dailyData weekData));
     entryCount :=
       fold_left (fun sum d => sum + Z.of_nat (length (entries d))) (dailyData weekData) 0;
     hasWeeklyData := (0 <? length (weeklyData weekData))%nat |}.

End DataProcessor.


(** ** utils/exportUtils.ts (the copy with the empty-data guards)

    A workbook is the ordered list of its sheets; a sheet is its name and
    the objects handed to [json_to_sheet].  The sheet-name checks of
    [book_append_sheet] are not modelled.  The two file-system actions lie
    outside the program: [ensureDir outputPath] is the outcome of
    [fs.ensureDir(path.dirname(outputPath))] and [writeFile outputPath wb]
    that of serialising and writing the workbook, [None] for success and
    [Some message] for a thrown error. *)

Module ExportUtils.

Inductive cell : Type :=
| Num (n : Z)
| Str (s : string).

Definition jsonRow : Type := list (string * cell).

Record sheet : Type := {
  sheetName : string;
  sheetData : list jsonRow
}.

Definition workbook : Type := list sheet.

Definition book_new : workbook := [].
Definition book_append_sheet (wb : workbook) (data : list jsonRow) (name : string)
  : workbook :=
  wb ++ [{| sheetName := name; sheetData := data |}].

Definition entryRow (entry : RankingEntry) : jsonRow :=
  [("Rank", Num (rank entry)); ("CommanderName", Str (commanderName entry));
   ("Points", Num (points entry))].

Definition emptyData : exn :=
  Error "No data to export - both daily and weekly data are empty".

Definition summaryData (week : WeekData) : list jsonRow :=
  [ [("Metric", Str "Week Number"); ("Value", Num (weekNumber week))];
    [("Metric", Str "Week Date"); ("Value", Str (weekDate week))];
    [("Metric", Str "Days Tracked"); ("Value", Num (Z.of_nat (length (dailyData week))))];
    [("Metric", Str "Total Daily Entries");
     ("Value", Num (fold_left (fun sum d => sum + Z.of_nat (length (entries d)))
                              (dailyData week) 0))];
    [("Metric", Str "Weekly Entries"); ("Value", Num (Z.of_nat (length (weeklyData week))))] ].

Record XlsxExport : Type := {
  message : string;
  written : workbook
}.

Definition exportToXLSX
  (ensureDir : string -> option string)
  (writeFile : string -> workbook -> option string)
  (week : WeekData) (outputPath : string) : result XlsxExport :=
  let workbook := book_new in
  (* a sheet for each day *)
  let workbook :=
    if (0 <? length (dailyData week))%nat
    then fold_left (fun wb d => book_append_sheet wb (map entryRow (entries d)) (day d))
                   (dailyData week) workbook
    else workbook in
  (* weekly data if present *)
  if (0 <? length (weeklyData week))%nat then
    let workbook := book_append_sheet workbook (map entryRow (weeklyData week)) "Weekly" in
    let workbook := book_append_sheet workbook (summaryData week) "Summary" in
    match ensureDir outputPath with
    | Some msg => Throw (Error msg)
    | None =>
        match writeFile outputPath workbook with
        | Some msg => Throw (Error ("Failed to write XLSX file: " +:+ msg))
        | None =>
            Ok {| message := "Exported week " +:+ JsString.ofZ (weekNumber week)
                             +:+ " to " +:+ outputPath;
                  written := workbook |}
        end
    end
  else Throw emptyData.

(** The sibling [exportToCSV], reduced to the names of the files it
    writes and to its guard. *)
Definition exportToCSV_files (week : WeekData) (baseName : string)
  : result (list string) :=
  let exportedFiles :=
    if (0 <? length (dailyData week))%nat
    then map (fun d => baseName +:+ "_" +:+ day d +:+ ".csv") (dailyData week)
    else [] in
  if (0 <? length (weeklyData week))%nat
  then Ok (exportedFiles ++ [baseName +:+ "_Weekly.csv"])
  else if (length (dailyData week) =? 0)%nat then Throw emptyData
  else Ok exportedFiles.

End ExportUtils.

(** ** The file system seen by the resolver

    A directory lists its entries in the order [readdir] reports them.
    The order is not fixed by the interface; on POSIX systems the runtime
    sorts the names it reports, and the statements that depend on the
    order of a listing say which order they assume.  A path is followed
    by looking the name up in that listing. *)

#[local] Set Warnings "-register-all".

Inductive node : Type :=
| RegularFile (size birthtime : Z)
| Directory (size birthtime : Z) (children : list (string * node)).

Module Dirent.
Record t : Type := {
  name : string;
  isDirectory : bool
}.
End Dirent.

Module Fs.

Definition isDir (n : node) : bool :=
  match n with
  | RegularFile _ _ => false
  | Directory _ _ _ => true
  end.

Definition statSize (n : node) : Z :=
  match n with
  | RegularFile s _ => s
  | Directory s _ _ => s
  end.

Definition statBirthtime (n : node) : Z :=
  match n with
  | RegularFile _ b => b
  | Directory _ b _ => b
  end.

(** [fs.readdir(path, { withFileTypes: true })] *)
Definition readdirWithFileTypes (path : string) (n : node) : result (list Dirent.t) :=
  match n with
  | RegularFile _ _ => Throw (Error ("ENOTDIR: not a directory, scandir '" +:+ path +:+ "'"))
  | Directory _ _ children =>
      Ok (map (fun c => {| Dirent.name := fst c; Dirent.isDirectory := isDir (snd c) |}) children)
  end.

(** [fs.readdir(path)] *)
Definition readdir (path : string) (n : node) : result (list string) :=
  match n with
  | RegularFile _ _ => Throw (Error ("ENOTDIR: not a directory, scandir '" +:+ path +:+ "'"))
  | Directory _ _ children => Ok (map fst children)
  end.

(** What the path [dir/name] denotes. *)
Definition lookup (path : string) (dir : node) (name : string) : result node :=
  match dir with
  | RegularFile _ _ => Throw (Error ("ENOTDIR: not a directory, '" +:+ path +:+ "'"))
  | Directory _ _ children =>
      match find (fun c => String.eqb (fst c) name) children with
      | Some c => Ok (snd c)
      | None => Throw (Error ("ENOENT: no such file or directory, '" +:+ path +:+ "'"))
      end
  end.

End Fs.

(** [path.join], [path.basename] and [path.extname] on POSIX paths; [join]
    does not normalise, [extname] is for names without a separator. *)
Module Path.

Definition join (a b : string) : string := a +:+ "/" +:+ b.

Fixpoint basenameFrom (cur last s : string) : string :=
  match s with
  | EmptyString => if JsString.isEmpty cur then last else cur
  | String c r =>
      if Ascii.eqb c "/"%char
      then basenameFrom EmptyString (if JsString.isEmpty cur then last else cur) r
      else basenameFrom (cur +:+ String c EmptyString) last r
  end.

Definition basename (p : string) : string := basenameFrom EmptyString EmptyString p.

Fixpoint fromLastDot (s : string) : option string :=
  match s with
  | EmptyString => None
  | String c r =>
      match fromLastDot r with
      | Some t => Some t
      | None => if Ascii.eqb c "."%char then Some s else None
      end
  end.

Definition extname (fileName : string) : string :=
  match fileName with
  | EmptyString => EmptyString
  | String _ r =>
      if String.eqb fileName ".." then EmptyString
      else match fromLastDot r with
           | Some t => t
           | None => EmptyString
           end
  end.

End Path.

(** ** utils/fileSystem.ts, the single-week resolver *)

Module FileSystemUtils.

(** [/^week\d+$/i.test(name)] *)
Definition isWeekDirectory (name : string) : bool :=
  match JsString.stripWeek name with
  | Some rest => negb (JsString.isEmpty rest) && JsString.allDigits rest
  | None => false
  end.

Definition isDayDirectory (name : string) : bool :=
  let normalizedName :=
    JsString.toUpperCase (JsString.charAt0 name)
    +:+ JsString.toLowerCase (JsString.slice1 name) in
  let validDays := DayOfWeek_values in
  includesString validDays normalizedName.

Definition isImageFile (fileName : string) : bool :=
  let imageExtensions := [".jpg"; ".jpeg"; ".png"; ".gif"; ".bmp"; ".webp"] in
  let ext := JsString.toLowerCase (Path.extname fileName) in
  includesString imageExtensions ext.

Definition getWeekNumber (week : string) : Z :=
  match JsString.matchWeekDigits week with
  | Some ds => JsString.parseInt ds
  | None => 0
  end.

Definition compareWeeks (a b : string) : Z := getWeekNumber a - getWeekNumber b.

Definition normalizeDay (d : string) : string :=
  JsString.toUpperCase (JsString.charAt0 d) +:+ JsString.toLowerCase (JsString.slice1 d).

Definition compareDays (a b : string) : Z :=
  let dayA := normalizeDay a in
  let dayB := normalizeDay b in
  dayOrder dayA - dayOrder dayB.

(** The names the week scan keeps, sorted; the last one is chosen. *)
Definition weekDirs (entries : list Dirent.t) : list string :=
  sort compareWeeks
    (map Dirent.name
       (List.filter (fun entry => Dirent.isDirectory entry && isWeekDirectory (Dirent.name entry))
                    entries)).

(** The result is the chosen path together with the directory it
    denotes; [None] is [null], also when [readdir] throws. *)
Definition findMostRecentWeekDir (basePath : string) (base : node)
  : option (string * node) :=
  match Fs.readdirWithFileTypes basePath base with
  | Throw _ => None
  | Ok entries =>
      let weekDirs := weekDirs entries in
      if (0 <? length weekDirs)%nat then
        let chosen := List.last weekDirs EmptyString in
        match Fs.lookup (Path.join basePath chosen) base chosen with
        | Ok n => Some (Path.join basePath chosen, n)
        | Throw _ => None
        end
      else None
  end.

Definition getDayDirectories (weekPath : string) (week : node) : result (list string) :=
  bind (Fs.readdirWithFileTypes weekPath week) (fun entries =>
    Ok (sort compareDays
          (map Dirent.name
             (List.filter (fun entry => Dirent.isDirectory entry && isDayDirectory (Dirent.name entry))
                          entries)))).

Definition getImageFiles (dayPath : string) (dayNode : node) : result (list string) :=
  bind (Fs.readdir dayPath dayNode) (fun entries =>
    Ok (sort compareStrings (List.filter isImageFile entries))).

(** The inner loop: one descriptor per image of one day directory. *)
Fixpoint statFiles (weekName dayDir dayPath : string) (dayNode : node)
  (imageFiles : list string) : result (list ScreenshotFile.t) :=
  match imageFiles with
  | [] => Ok []
  | file :: rest =>
      let filePath := Path.join dayPath file in
      bind (Fs.lookup filePath dayNode file) (fun stats =>
      bind (statFiles weekName dayDir dayPath dayNode rest) (fun more =>
        Ok ({| ScreenshotFile.fileName := file;
               ScreenshotFile.filePath := filePath;
               ScreenshotFile.week := weekName;
               ScreenshotFile.day := dayDir;
               ScreenshotFile.size := Fs.statSize stats;
               ScreenshotFile.createdAt := Fs.statBirthtime stats |} :: more)))
  end.

(** The outer loop over the day directories. *)
Fixpoint scanDays (weekName weekPath : string) (week : node) (dayDirs : list string)
  : result (list ScreenshotFile.t) :=
  match dayDirs with
  | [] => Ok []
  | dayDir :: rest =>
      let dayPath := Path.join weekPath dayDir in
      bind (Fs.lookup dayPath week dayDir) (fun dayNode =>
      bind (getImageFiles dayPath dayNode) (fun imageFiles =>
      bind (statFiles weekName dayDir dayPath dayNode imageFiles) (fun shots =>
      bind (scanDays weekName weekPath week rest) (fun more =>
        Ok (shots ++ more)))))
  end.

Definition dquote : string := String (ascii_of_N 34) EmptyString.

Definition noWeekDirectory : string :=
  "No week directory found. Please provide a path containing a week directory (e.g., "
  +:+ dquote +:+ "week1" +:+ dquote +:+ ")".

(** [isWeekDir ? inputPath : await this.findMostRecentWeekDir(inputPath)] *)
Definition weekPathOf (inputPath : string) (rootNode : node) : option (string * node) :=
let isWeekDir := isWeekDirectory (Path.basename inputPath) in
if isWeekDir then Some (inputPath, rootNode)
else findMostRecentWeekDir inputPath rootNode.

Definition scanBody (inputPath : string) (root : option node)
  : result (list ScreenshotFile.t) :=
match root with
| None => Throw (Error ("Directory does not exist: " +:+ inputPath))
| Some rootNode =>
    match weekPathOf inputPath rootNode with
    | None => Throw (Error noWeekDirectory)
    | Some (weekPath, week) =>
        let weekName := Path.basename weekPath in
        bind (getDayDirectories weekPath week) (fun dayDirs =>
          if (length dayDirs =? 0)%nat
          then Throw (Error ("No day directories found in " +:+ weekPath))
          else
            bind (scanDays weekName weekPath week dayDirs) (fun screenshots =>
              Ok (sort (fun a b => compareDays (ScreenshotFile.day a) (ScreenshotFile.day b))
                       screenshots)))
    end
end.

Definition messageOf (e : exn) : string :=
  match e with
  | Error m => m
  | RangeError m => m
  end.

(** [root] is what [inputPath] denotes, [None] when nothing exists
    there. *)
Definition scanScreenshotDirectory (inputPath : string) (root : option node)
  : result (list ScreenshotFile.t) :=
  match scanBody inputPath root with
  | Ok screenshots => Ok screenshots
  | Throw e => Throw (Error ("Failed to scan directory: " +:+ messageOf e))
  end.

End FileSystemUtils.

(** ** utils/fileSystem.ts, the multi-week copy: only its week pattern
    differs in what follows. *)

Module FileSystemUtilsMulti.

(** [/^week\d*$/i.test(name)] *)
Definition isWeekDirectory (name : string) : bool :=
  match JsString.stripWeek name with
  | Some rest => JsString.allDigits rest
  | None => false
  end.

End FileSystemUtilsMulti.

(** ** The aggregator over a store of arrays

    [processResults] works on JavaScript arrays, which are shared mutable
    objects: [push] and [sort] change an array in place and every holder
    of a reference sees the change.  Here the arrays live in a store.  An
    input result holds a reference to its [extracted] array; the week
    under construction holds references to its [weeklyData] array, to its
    [dailyData] array and, through the day objects, to one [entries] array
    per day.  The record objects the arrays contain are never assigned to,
    so they are values, as are the fields of a result and of its file
    descriptor. *)

Module DataProcessorStore.

Abbreviation loc := nat (only parsing).

Record DayRef : Type := {
  dayName : string;
  entriesRef : loc
}.

Inductive object : Type :=
| Entries (es : list RankingEntry)
| Days (ds : list DayRef).

Abbreviation store := (gmap nat object) (only parsing).

Record ResultRef : Type := {
  fileOf : ScreenshotFile.t;
  extractedRef : loc;
  successOf : bool;
  errorOf : option string;
  processingTimeOf : Z
}.

Record WeekRef : Type := {
  weekNumberOf : Z;
  weekDateOf : string;
  dailyDataRef : loc;
  weeklyDataRef : loc
}.

Record ExtractedRef : Type := {
  weeksOf : list WeekRef;
  metadataOf : Metadata
}.

Definition getEntries (h : store) (l : loc) : list RankingEntry :=
  match h !! l with
  | Some (Entries es) => es
  | _ => []
  end.

Definition getDays (h : store) (l : loc) : list DayRef :=
  match h !! l with
  | Some (Days ds) => ds
  | _ => []
  end.

(** [new] array or object literal: a reference nothing else holds. *)
Definition alloc (o : object) (h : store) : loc * store :=
  let l := fresh (dom h) in (l, <[l := o]> h).

(** [a.push(...es)] *)
Definition pushEntries (l : loc) (es : list RankingEntry) (h : store) : store :=
  <[l := Entries (getEntries h l ++ es)]> h.

(** [a.sort((a, b) => a.rank - b.rank)] *)
Definition sortEntries (l : loc) (h : store) : store :=
  <[l := Entries (sort compareRank (getEntries h l))]> h.

Definition pushDay (l : loc) (d : DayRef) (h : store) : store :=
  <[l := Days (getDays h l ++ [d])]> h.

Definition sortDays (l : loc) (h : store) : store :=
  <[l := Days (sort (fun a b => dayOrder (dayName a) - dayOrder (dayName b)) (getDays h l))]> h.

Definition addResultToWeekData (weekData : WeekRef) (result : ResultRef) (h : store)
  : store :=
  let name := DataProcessor.normalizeDayName (ScreenshotFile.day (fileOf result)) in
  if String.eqb name DayOfWeek_WEEKLY then
    let h := pushEntries (weeklyDataRef weekData) (getEntries h (extractedRef result)) h in
    sortEntries (weeklyDataRef weekData) h
  else
    let '(dayData, h) :=
      match find (fun d => String.eqb (dayName d) name) (getDays h (dailyDataRef weekData)) with
      | Some d => (d, h)
      | None =>
          let '(l, h) := alloc (Entries []) h in
          let d := {| dayName := name; entriesRef := l |} in
          (d, pushDay (dailyDataRef weekData) d h)
      end in
    let existingRanks : gset Z := list_to_set (map rank (getEntries h (entriesRef dayData))) in
    let newEntries :=
      List.filter (fun e => negb (bool_decide (rank e ∈ existingRanks)))
                  (getEntries h (extractedRef result)) in
    let h := pushEntries (entriesRef dayData) newEntries h in
    sortEntries (entriesRef dayData) h.

Definition firstWeekName (successfulResults : list ResultRef) : string :=
  match successfulResults with
  | r :: _ =>
      if JsString.isEmpty (ScreenshotFile.week (fileOf r)) then "week1"
      else ScreenshotFile.week (fileOf r)
  | [] => "week1"
  end.

Definition processResults (tz : JsDate.TimeZone) (now : string)
  (results : list ResultRef) (h : store) : result ExtractedRef * store :=
  let successfulResults := List.filter successOf results in
  if (length successfulResults =? 0)%nat then (Throw DataProcessor.noSuccessfulResults, h)
  else
    let weekName := firstWeekName successfulResults in
    let number := DataProcessor.extractWeekNumber weekName in
    let totalScreenshots := Z.of_nat (length successfulResults) in
    match DataProcessor.calculateWeekStartDate tz weekName with
    | Throw e => (Throw e, h)
    | Ok date =>
        let '(daily, h) := alloc (Days []) h in
        let '(weekly, h) := alloc (Entries []) h in
        let weekData :=
          {| weekNumberOf := number; weekDateOf := date;
             dailyDataRef := daily; weeklyDataRef := weekly |} in
        let h := fold_left (fun h result => addResultToWeekData weekData result h)
                           successfulResults h in
        let h := sortDays (dailyDataRef weekData) h in
        (Ok {| weeksOf := [weekData];
               metadataOf := {| totalWeeks := 1;
                                totalScreenshots := totalScreenshots;
                                extractedAt := now |} |}, h)
    end.

(** Reading the store: the value a reference stands for. *)
Definition readDay (h : store) (d : DayRef) : DayData :=
  {| day := dayName d; entries := getEntries h (entriesRef d) |}.

Definition readWeek (h : store) (w : WeekRef) : WeekData :=
  {| weekNumber := weekNumberOf w;
     weekDate := weekDateOf w;
     dailyData := map (readDay h) (getDays h (dailyDataRef w));
     weeklyData := getEntries h (weeklyDataRef w) |}.

Definition readExtracted (h : store) (x : ExtractedRef) : ExtractedData :=
  {| weeks := map (readWeek h) (weeksOf x); metadata := metadataOf x |}.

Definition readResult (h : store) (r : ResultRef) : ProcessingResult :=
  {| file := fileOf r;
     extracted := getEntries h (extractedRef r);
     success := successOf r;
     error := errorOf r;
     processingTime := processingTimeOf r |}.

(** The references a week holds. *)
Definition containers (h : store) (w : WeekRef) : list loc :=
  dailyDataRef w :: weeklyDataRef w :: map entriesRef (getDays h (dailyDataRef w)).

End DataProcessorStore.

(** ** Vocabulary of the statements *)

(** [a] may stand before [b] under the comparator [cmp]. *)
Definition leBy {A : Type} (cmp : A -> A -> Z) (a b : A) : Prop := cmp a b <= 0.

(** Ascending order under a comparator. *)
Definition ascending {A : Type} (cmp : A -> A -> Z) (l : list A) : Prop :=
  StronglySorted (leBy cmp) l.

(** The comparator [(a, b) => key(a) - key(b)]. *)
Definition byKey {A : Type} (key : A -> Z) (a b : A) : Z := key a - key b.

(** The last among the elements of greatest key. *)
Fixpoint lastGreatest {A : Type} (key : A -> Z) (l : list A) : option A :=
  match l with
  | [] => None
  | x :: l' =>
      match lastGreatest key l' with
      | None => Some x
      | Some m => if key m <? key x then Some x else Some m
      end
  end.

(** In ascending order of rank: no record stands before a record of
    smaller rank. *)
Definition sortedByRank (l : list RankingEntry) : Prop :=
  StronglySorted (fun a b => rank a <= rank b) l.

(** The records of a given rank, in the order they have in [l]. *)
Definition withRank (k : Z) (l : list RankingEntry) : list RankingEntry :=
  List.filter (fun e => rank e =? k) l.

(** First seen wins: the records of rank [k] in the first of the batches
    that has any. *)
Fixpoint firstSeen (k : Z) (batches : list (list RankingEntry)) : list RankingEntry :=
  match batches with
  | [] => []
  | b :: rest =>
      match withRank k b with
      | [] => firstSeen k rest
      | e :: es => e :: es
      end
  end.

(** The entries of the day named [d] in a week, none if there is no such
    day: what [dailyData.find(x => x.day === d)] gives access to. *)
Definition bucket (d : string) (w : WeekData) : list RankingEntry :=
  match find (fun b => String.eqb (day b) d) (dailyData w) with
  | Some b => entries b
  | None => []
  end.

(** The label under which the aggregator files a result. *)
Definition labelOf (r : ProcessingResult) : string :=
  DataProcessor.normalizeDayName (ScreenshotFile.day (file r)).

(** [c] does not occur in [s]. *)
Fixpoint avoids (c : ascii) (s : string) : bool :=
  match s with
  | EmptyString => true
  | String a r => negb (Ascii.eqb a c) && avoids c r
  end.

(** The calendar date of a day number, written YYYY-MM-DD. *)
Definition calendarDate (z : Z) : string :=
  let '(y, m, d) := JsDate.civilFromDays z in
  JsString.decPad 4 y +:+ "-" +:+ JsString.decPad 2 m +:+ "-" +:+ JsString.decPad 2 d.

(** The anchor date as the specification words it: the epoch 2024-01-01
    plus [(periodNumber - 1) * 7] days, written YYYY-MM-DD. *)
Definition anchorDate (periodNumber : Z) : string :=
  let '(y, m, d) :=
    JsDate.civilFromDays (JsDate.daysFromCivil 2024 1 1 + (periodNumber - 1) * 7) in
  JsString.decPad 4 y +:+ "-" +:+ JsString.decPad 2 m +:+ "-" +:+ JsString.decPad 2 d.

(** Local time never differs from UTC by more than a day. *)
Definition boundedZone (tz : JsDate.TimeZone) : Prop :=
  forall t, - JsDate.msPerDay <= JsDate.offsetAtUTC tz t <= JsDate.msPerDay
            /\ - JsDate.msPerDay <= JsDate.offsetAtLocal tz t <= JsDate.msPerDay.

(** The six checks of the validator as the specification lists them, each
    with the one message it contributes when it fails; the last three are
    made on every bucket. *)
Definition bucketIssues (d : DayData) : list string :=
  (if bool_decide (day d ∈ DayOfWeek_values) then []
   else ["Invalid day name: " +:+ day d])
  ++ (match entries d with
      | [] => ["No entries found for day: " +:+ day d]
      | _ :: _ => []
      end)
  ++ (if bool_decide (NoDup (map rank (entries d))) then []
      else ["Duplicate ranks found for day: " +:+ day d]).

Definition checkedIssues (w : WeekData) : list string :=
  (if bool_decide (0 < weekNumber w) then []
   else ["Invalid week number: " +:+ JsString.ofZ (weekNumber w)])
  ++ (if bool_decide (weekDate w = "") then ["Missing week date"] else [])
  ++ (match dailyData w with
      | [] => ["No daily data found"]
      | _ :: _ => []
      end)
  ++ flat_map bucketIssues (dailyData w).

(** The period pattern as the specification words it: the token [week]
    in any letter case, then digits, possibly none. *)
Definition periodPattern (name : string) : Prop :=
  exists w ds, name = w +:+ ds
    /\ JsString.toLowerCase w = "week" /\ JsString.allDigits ds = true.

(** The integer a decimal numeral denotes, digit by digit. *)
Definition decimal (ds : string) : Z :=
  fold_left (fun acc c => 10 * acc + (Z.of_N (N_of_ascii c) - 48))
            (list_ascii_of_string ds) 0.

(** The trailing digits of a week name, what follows the four letters of
    [week], and the number they write. *)
Definition trailingDigits (name : string) : string :=
  substring 4 (String.length name - 4) name.

Definition trailingNumber (name : string) : Z := decimal (trailingDigits name).

(** Lexical order of names: the order of their code units. *)
Definition lexLe (a b : string) : Prop := String.compare a b <> Gt.

(** The directories among the entries of a listing that pass [accept], by
    name and in listing order. *)
Definition directoriesNamed (accept : string -> bool) (children : list (string * node))
  : list string :=
  map fst (List.filter (fun c => Fs.isDir (snd c) && accept (fst c)) children).

(** The place of a located file in the fixed order of the categories. *)
Definition categoryOrder (f : ScreenshotFile.t) : Z :=
  dayOrder (FileSystemUtils.normalizeDay (ScreenshotFile.day f)).

(** Sorted first by category order, then by file name: the order of the
    pairs (category order, file name). *)
Definition byCategoryThenName (a b : ScreenshotFile.t) : Prop :=
  categoryOrder a < categoryOrder b
  \/ (categoryOrder a = categoryOrder b
      /\ lexLe (ScreenshotFile.fileName a) (ScreenshotFile.fileName b)).

(** The located files that come from the category directory [d]. *)
Definition inCategory (d : string) (files : list ScreenshotFile.t)
  : list ScreenshotFile.t :=
  List.filter (fun f => String.eqb (ScreenshotFile.day f) d) files.

(** What the scan emits for one image of a day directory. *)
Definition shotOf (weekName dayDir dayPath : string) (dayChildren : list (string * node))
  (file : string) : ScreenshotFile.t :=
  let stats :=
    match find (fun c => String.eqb (fst c) file) dayChildren with
    | Some c => snd c
    | None => RegularFile 0 0
    end in
  {| ScreenshotFile.fileName := file;
     ScreenshotFile.filePath := Path.join dayPath file;
     ScreenshotFile.week := weekName;
     ScreenshotFile.day := dayDir;
     ScreenshotFile.size := Fs.statSize stats;
     ScreenshotFile.createdAt := Fs.statBirthtime stats |}.

(** What the scan emits for one day directory of the week. *)
Definition dayBlock (weekName weekPath : string) (children : list (string * node))
  (dayDir : string) : list ScreenshotFile.t :=
  match find (fun c => String.eqb (fst c) dayDir) children with
  | Some (_, Directory _ _ dayChildren) =>
      map (shotOf weekName dayDir (Path.join weekPath dayDir) dayChildren)
          (sort compareStrings (List.filter FileSystemUtils.isImageFile (map fst dayChildren)))
  | _ => []
  end.

(** The week under construction owns its arrays: they are pairwise
    distinct, none of them existed in the store [h0] the call started
    from, and every array of [h0] still reads as it did. *)
Definition ownsWeek (h0 : DataProcessorStore.store) (w : DataProcessorStore.WeekRef)
  (h : DataProcessorStore.store) : Prop :=
  (forall l, l ∈ dom h0 -> h !! l = h0 !! l)
  /\ NoDup (DataProcessorStore.containers h w)
  /\ Forall (fun l => (l ∉ dom h0) /\ (l ∈ dom h)) (DataProcessorStore.containers h w).

(** ** Sample data *)

Module Sample.

Definition entry (r : Z) (n : string) (p : Z) : RankingEntry :=
  {| rank := r; commanderName := n; points := p |}.

Definition fileIn (w d : string) : ScreenshotFile.t :=
  {| ScreenshotFile.fileName := "shot.png";
     ScreenshotFile.filePath := Path.join (Path.join w d) "shot.png";
     ScreenshotFile.week := w;
     ScreenshotFile.day := d;
     ScreenshotFile.size := 1;
     ScreenshotFile.createdAt := 0 |}.

Definition succeeded (w d : string) (es : list RankingEntry) : ProcessingResult :=
  {| file := fileIn w d; extracted := es; success := true;
     error := None; processingTime := 1 |}.

Definition failed (w d : string) : ProcessingResult :=
  {| file := fileIn w d; extracted := []; success := false;
     error := Some "Unknown error"; processingTime := 0 |}.

Definition emptyWeek : WeekData :=
  {| weekNumber := 1; weekDate := "2024-01-01"; dailyData := []; weeklyData := [] |}.

(** A week with a Monday bucket and no weekly rankings. *)
Definition mondayOnly : WeekData :=
  {| weekNumber := 1; weekDate := "2024-01-01";
     dailyData := [{| day := "Monday"; entries := [entry 1 "A" 100] |}];
     weeklyData := [] |}.

(** A week with weekly rankings and no daily bucket. *)
Definition weeklyOnly : WeekData :=
  {| weekNumber := 1; weekDate := "2024-01-01";
     dailyData := [];
     weeklyData := [entry 1 "A" 100] |}.

(** Two Monday screenshots whose ranks overlap. *)
Definition mondayTwice : list ProcessingResult :=
  [ succeeded "week1" "Monday" [entry 1 "A" 100; entry 2 "B" 90; entry 3 "C" 80];
    succeeded "week1" "monday" [entry 2 "X" 11; entry 3 "Y" 12; entry 4 "D" 70] ].

(** Two Monday screenshots read out of rank order, whose ranks
    overlap. *)
Definition mondayShuffled : list ProcessingResult :=
  [ succeeded "week1" "Monday" [entry 3 "C" 80; entry 1 "A" 100];
    succeeded "week1" "monday" [entry 4 "D" 70; entry 3 "Y" 12; entry 2 "B" 90; entry 1 "X" 11] ].

(** Two Weekly screenshots that both show rank 1. *)
Definition weeklyTwice : list ProcessingResult :=
  [ succeeded "week1" "Weekly" [entry 1 "A" 100; entry 2 "B" 90];
    succeeded "week1" "weekly" [entry 1 "Z" 55] ].

(** Eastern time in 2024: five hours behind UTC, four from 10 March
    to 3 November. *)
Definition newYork : JsDate.TimeZone :=
  {| JsDate.offsetAtUTC := fun t =>
       if (1710054000000 <=? t) && (t <? 1730613600000) then -14400000 else -18000000;
     JsDate.offsetAtLocal := fun t =>
       if (1710036000000 <=? t) && (t <? 1730599200000) then -14400000 else -18000000 |}.

Definition emptyDir : node := Directory 4096 0 [].

(** A root with five week directories and a stray one, listed in the
    order of their names. *)
Definition weeksListing : list (string * node) :=
  [ ("notes", emptyDir); ("week01", emptyDir); ("week1", emptyDir);
    ("week10", emptyDir); ("week2", emptyDir); ("week9", emptyDir) ].

(** A root whose only subdirectory is named [week]. *)
Definition bareWeekOnly : node := Directory 4096 0 [("week", emptyDir)].

Definition image : node := RegularFile 1024 0.

(** A week whose listing has [Monday] and [monday]. *)
Definition caseTwins : node :=
  Directory 4096 0
    [ ("Monday", Directory 4096 0 [("c.png", image)]);
      ("monday", Directory 4096 0 [("a.png", image)]) ].

(** A week with two days and a stray directory. *)
Definition plainWeek : node :=
  Directory 4096 0
    [ ("weekly", Directory 4096 0 [("b.png", image); ("a.png", image)]);
      ("notes", Directory 4096 0 [("x.png", image)]);
      ("Monday", Directory 4096 0 [("z.jpg", image); ("readme.txt", image); ("k.PNG", image)]) ].

(** A store with the two arrays of two Monday results. *)
Definition refStore : gmap nat DataProcessorStore.object :=
  <[0%nat := DataProcessorStore.Entries [entry 1 "A" 100; entry 2 "B" 90]]>
    (<[1%nat := DataProcessorStore.Entries [entry 2 "X" 11; entry 3 "C" 80]]> ∅).

Definition refResults : list DataProcessorStore.ResultRef :=
  [ {| DataProcessorStore.fileOf := fileIn "week1" "Monday";
       DataProcessorStore.extractedRef := 0%nat;
       DataProcessorStore.successOf := true;
       DataProcessorStore.errorOf := None;
       DataProcessorStore.processingTimeOf := 1 |};
    {| DataProcessorStore.fileOf := fileIn "week1" "Monday";
       DataProcessorStore.extractedRef := 1%nat;
       DataProcessorStore.successOf := true;
       DataProcessorStore.errorOf := None;
       DataProcessorStore.processingTimeOf := 1 |} ].

Definition utc : JsDate.TimeZone := JsDate.fixedZone 0.

End Sample.

(* ================================================================== *)
(** * Part II: properties *)
(* ================================================================== *)

(** ** Stable sorting *)

Section SortFacts.
Context {A : Type}.
Variable cmp : A -> A -> Z.
Hypothesis cmp_trans : forall a b c, cmp a b <= 0 -> cmp b c <= 0 -> cmp a c <= 0.
Hypothesis cmp_total : forall a b, cmp a b <= 0 \/ cmp b a <= 0.

Lemma insertSorted_perm (x : A) (l : list A) :
  Permutation (insertSorted cmp x l) (x :: l).
Proof.
  induction l as [|y l IH]; simpl; [reflexivity|].
  destruct (cmp x y <=? 0); [reflexivity|].
  rewrite IH. apply perm_swap.
Qed.

Lemma sort_perm (l : list A) : Permutation (sort cmp l) l.
Proof.
  induction l as [|x l IH]; simpl; [reflexivity|].
  rewrite insertSorted_perm. now constructor.
Qed.

Lemma sort_In (x : A) (l : list A) : In x (sort cmp l) <-> In x l.
Proof.
  split; apply Permutation_in; [|symmetry]; apply sort_perm.
Qed.

Lemma sort_length (l : list A) : length (sort cmp l) = length l.
Proof. apply Permutation_length, sort_perm. Qed.

Lemma insertSorted_front (x : A) (l : list A) :
  Forall (leBy cmp x) l -> insertSorted cmp x l = x :: l.
Proof.
  destruct l as [|y l]; simpl; [reflexivity|].
  intros H. inversion H as [|? ? Hy _]; subst. unfold leBy in Hy.
  destruct (Z.leb_spec (cmp x y) 0); [reflexivity | lia].
Qed.

Lemma insertSorted_ascending (x : A) (l : list A) :
  ascending cmp l -> ascending cmp (insertSorted cmp x l).
Proof.
  unfold ascending. induction l as [|y l IH]; simpl; intros Hs.
  - repeat constructor.
  - inversion Hs as [|? ? Hl Hy]; subst.
    destruct (Z.leb_spec (cmp x y) 0) as [Hxy|Hxy].
    + constructor; [assumption|]. constructor; [assumption|].
      eapply List.Forall_impl; [|exact Hy]. intros z Hz. unfold leBy in *. eauto.
    + constructor; [auto|].
      assert (Hp : Permutation (insertSorted cmp x l) (x :: l)) by apply insertSorted_perm.
      apply List.Forall_forall. intros z Hz.
      apply (Permutation_in _ Hp) in Hz. destruct Hz as [<-|Hz].
      * unfold leBy. destruct (cmp_total y x); [assumption | lia].
      * rewrite List.Forall_forall in Hy. auto.
Qed.

Lemma sort_ascending (l : list A) : ascending cmp (sort cmp l).
Proof.
  induction l as [|x l IH]; simpl; [constructor|].
  now apply insertSorted_ascending.
Qed.

(** Sorting what is already in order changes nothing. *)
Lemma sort_ascending_id (l : list A) : ascending cmp l -> sort cmp l = l.
Proof.
  unfold ascending. induction 1 as [|x l Hl IH Hx]; simpl; [reflexivity|].
  rewrite IH. now apply insertSorted_front.
Qed.

(** Stability: selecting before or after sorting gives the same list. *)
Lemma filter_insertSorted (p : A -> bool) (x : A) (l : list A) :
  ascending cmp l ->
  List.filter p (insertSorted cmp x l)
  = if p x then insertSorted cmp x (List.filter p l) else List.filter p l.
Proof.
  unfold ascending. induction 1 as [|y l Hl IH Hy]; simpl.
  - now destruct (p x).
  - destruct (Z.leb_spec (cmp x y) 0) as [Hxy|Hxy]; simpl.
    + destruct (p x); [|reflexivity].
      symmetry. apply insertSorted_front.
      assert (Hall : Forall (leBy cmp x) (y :: l)).
      { constructor; [exact Hxy|]. eapply List.Forall_impl; [|exact Hy].
        intros z Hz. unfold leBy in *. eauto. }
      apply List.Forall_forall. intros z Hz.
      rewrite List.Forall_forall in Hall. apply Hall.
      change (In z (List.filter p (y :: l))) in Hz.
      apply filter_In in Hz. tauto.
    + rewrite IH. destruct (p y), (p x); simpl; try reflexivity.
      destruct (Z.leb_spec (cmp x y) 0); [lia | reflexivity].
Qed.

Lemma filter_sort (p : A -> bool) (l : list A) :
  List.filter p (sort cmp l) = sort cmp (List.filter p l).
Proof.
  induction l as [|x l IH]; simpl; [reflexivity|].
  rewrite filter_insertSorted by apply sort_ascending.
  rewrite IH. now destruct (p x).
Qed.

(** Elements that compare equal keep their order. *)
Lemma filter_sort_equal (p : A -> bool) (l : list A) :
  (forall a b, p a = true -> p b = true -> cmp a b <= 0) ->
  List.filter p (sort cmp l) = List.filter p l.
Proof.
  intros Heq. rewrite filter_sort. apply sort_ascending_id.
  unfold ascending. induction l as [|x l IH]; simpl; [constructor|].
  destruct (p x) eqn:Hx; [|assumption].
  constructor; [assumption|].
  apply List.Forall_forall. intros z Hz. apply filter_In in Hz.
  apply Heq; tauto.
Qed.

Lemma insertSorted_comm (x y : A) (t : list A) :
  0 < cmp x y ->
  insertSorted cmp y (insertSorted cmp x t) = insertSorted cmp x (insertSorted cmp y t).
Proof.
  intros Hxy.
  assert (Hyx : cmp y x <= 0) by (destruct (cmp_total x y); [lia | assumption]).
  induction t as [|z t IH]; simpl;
    repeat (match goal with
            | |- context [?a <=? 0] => destruct (Z.leb_spec a 0)
            end; simpl);
    try reflexivity; try lia;
    try (pose proof (cmp_trans y x z); lia).
  now rewrite IH.
Qed.

(** Sorting a prefix first does not change the outcome: successive
    [push]-then-[sort] rounds amount to one sort of everything pushed. *)
Lemma sort_app_sorted_left (l1 l2 : list A) :
  sort cmp (sort cmp l1 ++ l2) = sort cmp (l1 ++ l2).
Proof.
  induction l1 as [|x l1 IH]; simpl; [reflexivity|].
  rewrite <- IH. clear IH.
  generalize (sort_ascending l1). generalize (sort cmp l1). intros s Hs.
  induction Hs as [|y s Hs IH Hy]; simpl; [reflexivity|].
  destruct (Z.leb_spec (cmp x y) 0) as [Hxy|Hxy]; simpl; [reflexivity|].
  rewrite IH. now apply insertSorted_comm.
Qed.

End SortFacts.

Section KeySortFacts.
Context {A : Type}.
Variable key : A -> Z.

Lemma byKey_trans (a b c : A) : (byKey key) a b <= 0 -> (byKey key) b c <= 0 -> (byKey key) a c <= 0.
Proof. unfold byKey. lia. Qed.

Lemma byKey_total (a b : A) : (byKey key) a b <= 0 \/ (byKey key) b a <= 0.
Proof. unfold byKey. lia. Qed.

Lemma lastGreatest_None (l : list A) : lastGreatest key l = None <-> l = [].
Proof.
  destruct l as [|x l]; simpl; [tauto|].
  split; [|discriminate].
  destruct (lastGreatest key l); [destruct (_ <? _)|]; discriminate.
Qed.

Lemma lastGreatest_spec (l : list A) (m : A) :
  lastGreatest key l = Some m ->
  exists pre post, l = pre ++ m :: post
    /\ Forall (fun y => key y <= key m) pre
    /\ Forall (fun y => key y < key m) post.
Proof.
  revert m. induction l as [|x l IH]; simpl; intros m Hm; [discriminate|].
  destruct (lastGreatest key l) as [g|] eqn:Hg.
  - destruct (IH g eq_refl) as (pre & post & -> & Hpre & Hpost).
    destruct (Z.ltb_spec (key g) (key x)) as [Hlt|Hge]; inversion Hm; subst.
    + exists [], (pre ++ g :: post). repeat split; [constructor|].
      apply Forall_app. split.
      * eapply List.Forall_impl; [|exact Hpre]. simpl. intros; lia.
      * constructor; [assumption|].
        eapply List.Forall_impl; [|exact Hpost]. simpl. intros; lia.
    + exists (x :: pre), post. repeat split; [|assumption].
      constructor; assumption.
  - apply lastGreatest_None in Hg. subst l. inversion Hm; subst.
    exists [], []. repeat split; constructor.
Qed.

Lemma lastGreatest_insertSorted (x : A) (s : list A) :
  lastGreatest key (insertSorted (byKey key) x s) = lastGreatest key (x :: s).
Proof.
  induction s as [|y s IH]; [reflexivity|].
  cbn [insertSorted]. unfold byKey at 1.
  destruct (Z.leb_spec (key x - key y) 0) as [Hxy|Hxy]; [reflexivity|].
  cbn [lastGreatest] in *. rewrite IH.
  destruct (lastGreatest key s) as [g|].
  - destruct (Z.ltb_spec (key g) (key x)), (Z.ltb_spec (key g) (key y));
      repeat match goal with
             | |- context [?a <? ?b] => destruct (Z.ltb_spec a b)
             end; try reflexivity; lia.
  - repeat match goal with
           | |- context [?a <? ?b] => destruct (Z.ltb_spec a b)
           end; try reflexivity; lia.
Qed.

Lemma lastGreatest_sort (l : list A) :
  lastGreatest key (sort (byKey key) l) = lastGreatest key l.
Proof.
  induction l as [|x l IH]; [reflexivity|].
  cbn [sort]. rewrite lastGreatest_insertSorted. cbn [lastGreatest]. now rewrite IH.
Qed.

Lemma lastGreatest_ascending (l : list A) (d : A) :
  ascending (byKey key) l -> l <> [] -> lastGreatest key l = Some (List.last l d).
Proof.
  unfold ascending. induction 1 as [|x l Hl IH Hx]; intros Hne; [congruence|].
  destruct l as [|y l]; [reflexivity|].
  cbn [lastGreatest] in *. rewrite IH by discriminate.
  change (List.last (x :: y :: l) d) with (List.last (y :: l) d).
  assert (Hin : In (List.last (y :: l) d) (y :: l)).
  { destruct (exists_last (l := y :: l)) as (l' & a & E); [discriminate|].
    rewrite E, last_last. apply in_or_app. right. now left. }
  rewrite List.Forall_forall in Hx. specialize (Hx _ Hin). unfold leBy, byKey in Hx.
  destruct (Z.ltb_spec (key (List.last (y :: l) d)) (key x)); [lia | reflexivity].
Qed.

(** What [sorted[sorted.length - 1]] is after a sort by key. *)
Lemma last_sort_byKey (l : list A) (d : A) :
  l <> [] -> lastGreatest key l = Some (List.last (sort (byKey key) l) d).
Proof.
  intros Hne. rewrite <- lastGreatest_sort.
  apply lastGreatest_ascending.
  - apply sort_ascending; [apply byKey_trans | apply byKey_total].
  - intros E. apply Hne. apply length_zero_iff_nil.
    rewrite <- (sort_length (byKey key) l), E. reflexivity.
Qed.

End KeySortFacts.

(** ** Workbook export *)

Section XlsxFacts.
Variable ensureDir : string -> option string.
Variable writeFile : string -> ExportUtils.workbook -> option string.

(** Without weekly rankings the export throws, whatever the days hold. *)
Lemma exportToXLSX_weekly_empty (week : WeekData) (outputPath : string) :
  weeklyData week = [] ->
  ExportUtils.exportToXLSX ensureDir writeFile week outputPath
  = Throw ExportUtils.emptyData.
Proof.
  intros Hw. unfold ExportUtils.exportToXLSX. rewrite Hw. reflexivity.
Qed.

(** With weekly rankings and no day, the workbook is the Weekly sheet
    followed by the Summary sheet. *)
Lemma exportToXLSX_weekly_only (week : WeekData) (outputPath : string) :
  dailyData week = [] ->
  weeklyData week <> [] ->
  let wb := [ {| ExportUtils.sheetName := "Weekly";
                 ExportUtils.sheetData := map ExportUtils.entryRow (weeklyData week) |};
              {| ExportUtils.sheetName := "Summary";
                 ExportUtils.sheetData := ExportUtils.summaryData week |} ] in
  ensureDir outputPath = None ->
  writeFile outputPath wb = None ->
  exists msg,
    ExportUtils.exportToXLSX ensureDir writeFile week outputPath
    = Ok {| ExportUtils.message := msg; ExportUtils.written := wb |}.
Proof.
  intros Hd Hw wb He Hf. unfold ExportUtils.exportToXLSX.
  rewrite Hd. destruct (weeklyData week) as [|e es] eqn:E; [congruence|].
  cbn [length Nat.ltb Nat.leb fold_left ExportUtils.book_new
       ExportUtils.book_append_sheet app].
  rewrite He. subst wb. cbn [ExportUtils.book_append_sheet app] in Hf.
  rewrite <- E in *. rewrite Hf. eexists. reflexivity.
Qed.

(** C1 (the code departs from it).  A week with a Monday bucket and no
    weekly rankings is not empty, and the flat-table export of it
    writes its one file; the workbook export of the same week throws the
    error reserved for a week with no data at all. *)
Theorem exportToXLSX_daily_only_throws (outputPath : string) :
  dailyData Sample.mondayOnly <> []
  /\ ExportUtils.exportToCSV_files Sample.mondayOnly "week1" = Ok ["week1_Monday.csv"]
  /\ ExportUtils.exportToXLSX ensureDir writeFile Sample.mondayOnly outputPath
     = Throw ExportUtils.emptyData.
Proof.
  split; [discriminate|]. split; [reflexivity|].
  now apply exportToXLSX_weekly_empty.
Qed.

End XlsxFacts.

(** The workbook of a week with weekly rankings only, when both
    file-system actions succeed. *)
Example exportToXLSX_weeklyOnly_sheets :
  exists out,
    ExportUtils.exportToXLSX (fun _ => None) (fun _ _ => None) Sample.weeklyOnly "out.xlsx"
    = Ok out
    /\ map ExportUtils.sheetName (ExportUtils.written out) = ["Weekly"; "Summary"]
    /\ ExportUtils.message out = "Exported week 1 to out.xlsx".
Proof. eexists. repeat split. Qed.

(** ** Folding results into a week *)

Lemma compareRank_trans (a b c : RankingEntry) :
  compareRank a b <= 0 -> compareRank b c <= 0 -> compareRank a c <= 0.
Proof. unfold compareRank. lia. Qed.

Lemma compareRank_total (a b : RankingEntry) :
  compareRank a b <= 0 \/ compareRank b a <= 0.
Proof. unfold compareRank. lia. Qed.

Lemma withRank_app (k : Z) (l1 l2 : list RankingEntry) :
  withRank k (l1 ++ l2) = withRank k l1 ++ withRank k l2.
Proof. apply List.filter_app. Qed.

Lemma withRank_sort (k : Z) (l : list RankingEntry) :
  withRank k (sort compareRank l) = withRank k l.
Proof.
  unfold withRank.
  apply filter_sort_equal; [apply compareRank_trans | apply compareRank_total |].
  intros a b Ha Hb. apply Z.eqb_eq in Ha, Hb. unfold compareRank. lia.
Qed.

Lemma withRank_absent (k : Z) (l : list RankingEntry) :
  ~ In k (map rank l) -> withRank k l = [].
Proof.
  induction l as [|e l IH]; simpl; intros Hn; [reflexivity|].
  destruct (Z.eqb_spec (rank e) k); [tauto|]. apply IH. tauto.
Qed.

(** The merge, rank by rank: a rank the bucket already has keeps the
    bucket's records and takes none of the new ones; any other rank takes
    the new records, all of them and in their order. *)
Lemma withRank_mergeEntries (k : Z) (existing new : list RankingEntry) :
  withRank k (DataProcessor.mergeEntries existing new)
  = if bool_decide (k ∈ map rank existing)
    then withRank k existing
    else withRank k new.
Proof.
  unfold DataProcessor.mergeEntries.
  rewrite withRank_sort, withRank_app.
  case_bool_decide as Hk.
  - rewrite <- app_nil_r. f_equal.
    apply withRank_absent. rewrite in_map_iff. intros (e & He & Hin).
    apply filter_In in Hin. destruct Hin as [_ Hf].
    apply negb_true_iff, bool_decide_eq_false in Hf. apply Hf.
    apply elem_of_list_to_set. now rewrite He.
  - rewrite (withRank_absent k existing) by now rewrite <- list_elem_of_In.
    simpl. unfold withRank. induction new as [|e new IH]; simpl; [reflexivity|].
    destruct (bool_decide (rank e ∈ _)) eqn:Hd; simpl.
    + apply bool_decide_eq_true in Hd.
      apply elem_of_list_to_set in Hd.
      destruct (Z.eqb_spec (rank e) k); [congruence | apply IH].
    + destruct (Z.eqb_spec (rank e) k); [f_equal|]; apply IH.
Qed.

Lemma mergeEntries_ascending (existing new : list RankingEntry) :
  ascending compareRank (DataProcessor.mergeEntries existing new).
Proof.
  unfold DataProcessor.mergeEntries.
  apply sort_ascending; [apply compareRank_trans | apply compareRank_total].
Qed.

Lemma find_updateDay_same (d : string) (f : list RankingEntry -> list RankingEntry)
  (days : list DayData) :
  find (fun b => String.eqb (day b) d) (DataProcessor.updateDay d f days)
  = option_map (fun b => {| day := day b; entries := f (entries b) |})
               (find (fun b => String.eqb (day b) d) days).
Proof.
  induction days as [|b days IH]; simpl; [reflexivity|].
  destruct (String.eqb (day b) d) eqn:E; simpl; rewrite E; [reflexivity | apply IH].
Qed.

Lemma find_updateDay_other (d d' : string) (f : list RankingEntry -> list RankingEntry)
  (days : list DayData) :
  d' <> d ->
  find (fun b => String.eqb (day b) d') (DataProcessor.updateDay d f days)
  = find (fun b => String.eqb (day b) d') days.
Proof.
  intros Hne. induction days as [|b days IH]; simpl; [reflexivity|].
  destruct (String.eqb_spec (day b) d) as [E|E]; simpl.
  - destruct (String.eqb_spec (day b) d'); [congruence | reflexivity].
  - destruct (String.eqb (day b) d'); [reflexivity | apply IH].
Qed.

Lemma find_app_none {A : Type} (p : A -> bool) (l : list A) (x : A) :
  find p l = None -> find p (l ++ [x]) = if p x then Some x else None.
Proof.
  induction l as [|y l IH]; simpl; [reflexivity|].
  destruct (p y); [discriminate | exact IH].
Qed.

Lemma find_app_some {A : Type} (p : A -> bool) (l l' : list A) (x : A) :
  find p l = Some x -> find p (l ++ l') = Some x.
Proof.
  induction l as [|y l IH]; simpl; [discriminate|].
  destruct (p y); [trivial | exact IH].
Qed.

(** One daily result: its bucket is merged, nothing else moves. *)
Lemma addResult_daily (w : WeekData) (r : ProcessingResult) :
  labelOf r <> DayOfWeek_WEEKLY ->
  bucket (labelOf r) (DataProcessor.addResultToWeekData w r)
  = DataProcessor.mergeEntries (bucket (labelOf r) w) (extracted r)
  /\ (forall d', d' <> labelOf r ->
        bucket d' (DataProcessor.addResultToWeekData w r) = bucket d' w)
  /\ weeklyData (DataProcessor.addResultToWeekData w r) = weeklyData w.
Proof.
  intros Hne. unfold DataProcessor.addResultToWeekData. fold (labelOf r).
  destruct (String.eqb_spec (labelOf r) DayOfWeek_WEEKLY) as [E|_]; [contradiction|].
  unfold bucket. cbn [setDailyData dailyData weeklyData].
  repeat split.
  - rewrite find_updateDay_same.
    destruct (find _ (dailyData w)) as [b|] eqn:F.
    + rewrite F. reflexivity.
    + rewrite (find_app_none _ _ _ F). cbn [day]. rewrite String.eqb_refl. reflexivity.
  - intros d' Hd'. rewrite find_updateDay_other by assumption.
    destruct (find (fun d => String.eqb (day d) (labelOf r)) (dailyData w)) eqn:F;
      [reflexivity|].
    destruct (find (fun b => String.eqb (day b) d') (dailyData w)) eqn:F'.
    + rewrite (find_app_some _ _ _ _ F'). reflexivity.
    + rewrite (find_app_none _ _ _ F'). cbn [day].
      destruct (String.eqb_spec (labelOf r) d'); [congruence | reflexivity].
Qed.

(** One weekly result: its records are pushed and the array re-sorted. *)
Lemma addResult_weekly (w : WeekData) (r : ProcessingResult) :
  labelOf r = DayOfWeek_WEEKLY ->
  DataProcessor.addResultToWeekData w r
  = setWeeklyData w (sort compareRank (weeklyData w ++ extracted r)).
Proof.
  intros E. unfold DataProcessor.addResultToWeekData. fold (labelOf r).
  rewrite E. reflexivity.
Qed.

Lemma withRank_nonempty (k : Z) (l : list RankingEntry) :
  k ∈ map rank l <-> withRank k l <> [].
Proof.
  rewrite list_elem_of_In. induction l as [|e l IH]; simpl; [tauto|].
  destruct (Z.eqb_spec (rank e) k); [|rewrite <- IH; tauto].
  split; [discriminate | auto].
Qed.

Lemma fold_addResult_daily (d : string) (rs : list ProcessingResult) (w : WeekData) :
  d <> DayOfWeek_WEEKLY ->
  Forall (fun r => labelOf r = d) rs ->
  bucket d (fold_left DataProcessor.addResultToWeekData rs w)
  = fold_left (fun es r => DataProcessor.mergeEntries es (extracted r)) rs (bucket d w).
Proof.
  intros Hd Hrs. revert w. induction Hrs as [|r rs Hr _ IH]; intros w; simpl; [reflexivity|].
  rewrite IH. f_equal. subst d. now apply addResult_daily.
Qed.

Lemma fold_mergeEntries_firstSeen (k : Z) (rs : list ProcessingResult)
  (es : list RankingEntry) :
  withRank k (fold_left (fun es r => DataProcessor.mergeEntries es (extracted r)) rs es)
  = firstSeen k (es :: map extracted rs).
Proof.
revert es. induction rs as [|r rs IH]; intros es.
- cbn [fold_left map firstSeen]. now destruct (withRank k es).
- cbn [fold_left map]. rewrite IH. cbn [firstSeen].
  rewrite withRank_mergeEntries. case_bool_decide as Hk.
  + apply withRank_nonempty in Hk. now destruct (withRank k es).
  + rewrite (withRank_absent k es) by now rewrite <- list_elem_of_In.
    reflexivity.
Qed.

Lemma fold_mergeEntries_ascending (rs : list ProcessingResult) (es : list RankingEntry) :
  rs <> [] ->
  ascending compareRank
    (fold_left (fun es r => DataProcessor.mergeEntries es (extracted r)) rs es).
Proof.
intros Hne. destruct (exists_last Hne) as (rs' & r & ->).
rewrite fold_left_app. cbn [fold_left]. apply mergeEntries_ascending.
Qed.

(** Ascending order under the comparator of the code is ascending order
    of the ranks. *)
Lemma ascending_sortedByRank (l : list RankingEntry) :
  ascending compareRank l -> sortedByRank l.
Proof.
unfold ascending, sortedByRank. induction 1 as [|e l Hl IH He]; constructor; [exact IH|].
apply (List.Forall_impl _ (P := leBy compareRank e)); [|exact He].
intros b Hb. unfold leBy, compareRank in Hb. lia.
Qed.



Lemma fold_addResult_weekly (rs : list ProcessingResult) (w : WeekData) :
  Forall (fun r => labelOf r = DayOfWeek_WEEKLY) rs ->
  fold_left DataProcessor.addResultToWeekData rs w
  = match rs with
    | [] => w
    | _ :: _ => setWeeklyData w (sort compareRank (weeklyData w ++ flat_map extracted rs))
    end.
Proof.
  intros Hrs. revert w. induction Hrs as [|r rs Hr Hrs IH]; intros w; [reflexivity|].
  cbn [fold_left flat_map]. rewrite IH, (addResult_weekly w r Hr).
  destruct rs as [|r' rs]; cbn [setWeeklyData weeklyData weekNumber weekDate dailyData].
  - cbn [flat_map]. now rewrite app_nil_r.
  - unfold setWeeklyData. cbn [weeklyData weekNumber weekDate dailyData]. f_equal.
    rewrite sort_app_sorted_left by (apply compareRank_trans || apply compareRank_total).
    now rewrite <- app_assoc.
Qed.



(** ** Dates *)

Lemma civilFromDays_range (z : Z) :
  19716 <= z <= 2932892 ->
  let '(y, m, d) := JsDate.civilFromDays z in
  0 <= y <= 9999 /\ 1 <= m <= 12 /\ 1 <= d <= 31.
Proof.
  intros Hz. unfold JsDate.civilFromDays.
  remember (z + 719468) as z' eqn:Ez.
  remember (z' / 146097) as era eqn:Eera.
  remember (z' - era * 146097) as doe eqn:Edoe.
  remember ((doe - doe / 1460 + doe / 36524 - doe / 146096) / 365) as yoe eqn:Eyoe.
  remember (doe - (365 * yoe + yoe / 4 - yoe / 100)) as doy eqn:Edoy.
  remember ((5 * doy + 2) / 153) as mp eqn:Emp.
  assert (0 <= era <= 24) by (Z.div_mod_to_equations; lia).
  assert (0 <= doe <= 146096) by (Z.div_mod_to_equations; lia).
  assert (era = 24 -> doe <= 146032) by lia.
  assert (0 <= yoe <= 399) by (Z.div_mod_to_equations; lia).
  assert (0 <= doy <= 365) by (Z.div_mod_to_equations; lia).
  assert (0 <= mp <= 11) by (Z.div_mod_to_equations; lia).
  assert (era = 24 -> yoe = 399 -> mp <= 9) by (Z.div_mod_to_equations; lia).
  assert (1 <= doy - (153 * mp + 2) / 5 + 1 <= 31) by (Z.div_mod_to_equations; lia).
  destruct (Z.ltb_spec mp 10);
    match goal with |- context [?a <=? 2] => destruct (Z.leb_spec a 2) end; lia.
Qed.

Lemma avoids_app (c : ascii) (s1 s2 : string) :
  avoids c (s1 +:+ s2) = avoids c s1 && avoids c s2.
Proof.
  induction s1 as [|a s1 IH]; simpl; [reflexivity|].
  rewrite IH. now rewrite andb_assoc.
Qed.

Lemma beforeFirst_app (c : ascii) (s r : string) :
  avoids c s = true -> JsString.beforeFirst c (s +:+ String c r) = s.
Proof.
  induction s as [|a s IH]; simpl; intros H.
  - now rewrite Ascii.eqb_refl.
  - apply andb_true_iff in H. destruct H as [Ha Hs].
    apply negb_true_iff in Ha. rewrite Ha. now rewrite IH.
Qed.

Lemma avoids_T_decPad (w : nat) (n : Z) : avoids "T" (JsString.decPad w n) = true.
Proof.
  revert n. induction w as [|w IH]; intros n; simpl; [reflexivity|].
  rewrite avoids_app, IH. simpl.
  assert (Hd : 0 <= n mod 10 < 10) by (apply Z.mod_pos_bound; lia).
  remember (n mod 10) as d eqn:Ed. clear Ed.
  assert (Hc : d = 0 \/ d = 1 \/ d = 2 \/ d = 3 \/ d = 4 \/ d = 5 \/ d = 6 \/ d = 7
               \/ d = 8 \/ d = 9) by lia.
  repeat (destruct Hc as [->|Hc]; [reflexivity|]). subst d. reflexivity.
Qed.

Lemma avoids_T_isoDate (ymd : Z * Z * Z) : avoids "T" (JsDate.isoDate ymd) = true.
Proof.
  destruct ymd as [[y m] d]. unfold JsDate.isoDate, JsDate.isoYear.
  repeat rewrite avoids_app. repeat rewrite avoids_T_decPad.
  destruct ((0 <=? y) && (y <=? 9999)).
  - now rewrite avoids_T_decPad.
  - rewrite avoids_app, avoids_T_decPad. now destruct (y <? 0).
Qed.

(** [toISOString().split('T')[0]] is the date part. *)
Lemma toISOString_date (t : Z) :
  bind (JsDate.toISOString (Some t)) (fun iso => Ok (JsString.beforeFirst "T" iso))
  = Ok (JsDate.isoDate (JsDate.civilFromDays (JsDate.Day t))).
Proof.
  unfold JsDate.toISOString, bind. f_equal.
  change ("T" +:+ ?r) with (String "T"%char r).
  apply beforeFirst_app, avoids_T_isoDate.
Qed.

Lemma calculateWeekStartDate_eq (tz : JsDate.TimeZone) (weekDir : string) :
  DataProcessor.calculateWeekStartDate tz weekDir
  = match JsDate.setDate tz JsDate.date_2024_01_01
            (JsDate.getDate tz JsDate.date_2024_01_01
             + (DataProcessor.extractWeekNumber weekDir - 1) * 7) with
    | Some t => Ok (JsDate.isoDate (JsDate.civilFromDays (JsDate.Day t)))
    | None => Throw (RangeError "Invalid time value")
    end.
Proof.
  unfold DataProcessor.calculateWeekStartDate.
  destruct (JsDate.setDate _ _ _) as [t|]; [apply toISOString_date | reflexivity].
Qed.

(** [setDate(getDate() + k)] moves the local time by [k] whole days. *)
Lemma setDate_getDate_shift (tz : JsDate.TimeZone) (k : Z) :
  boundedZone tz ->
  JsDate.setDate tz JsDate.date_2024_01_01 (JsDate.getDate tz JsDate.date_2024_01_01 + k)
  = JsDate.TimeClip
      (JsDate.UTC tz (JsDate.LocalTime tz JsDate.date_2024_01_01 + k * JsDate.msPerDay)).
Proof.
  intros Hb. unfold JsDate.setDate, JsDate.getDate. f_equal. f_equal.
  remember (JsDate.LocalTime tz JsDate.date_2024_01_01) as lt eqn:Elt.
  assert (Hlt : 19722 * 86400000 <= lt < 19725 * 86400000).
  { subst lt. unfold JsDate.LocalTime. destruct (Hb JsDate.date_2024_01_01) as [Ho _].
    change JsDate.date_2024_01_01 with 1704067200000 in *.
    unfold JsDate.msPerDay in Ho. lia. }
  assert (Hmod : lt = JsDate.Day lt * 86400000 + JsDate.TimeWithinDay lt).
  { unfold JsDate.Day, JsDate.TimeWithinDay, JsDate.msPerDay.
    pose proof (Z.div_mod lt 86400000). lia. }
  assert (Hday : JsDate.Day lt = 19722 \/ JsDate.Day lt = 19723 \/ JsDate.Day lt = 19724).
  { unfold JsDate.Day, JsDate.msPerDay. Z.div_mod_to_equations. lia. }
  unfold JsDate.MakeDate, JsDate.YearFromTime, JsDate.MonthFromTime, JsDate.DateFromTime.
  unfold JsDate.MakeDay.
  destruct Hday as [E|[E|E]]; rewrite E in *.
  - change (JsDate.civilFromDays 19722) with (2023, 12, 31). cbv iota beta.
    replace (JsDate.daysFromCivil (2023 + (12 - 1) / 12) ((12 - 1) mod 12 + 1) 1)
      with 19692 by reflexivity.
    unfold JsDate.msPerDay. lia.
  - change (JsDate.civilFromDays 19723) with (2024, 1, 1). cbv iota beta.
    replace (JsDate.daysFromCivil (2024 + (1 - 1) / 12) ((1 - 1) mod 12 + 1) 1)
      with 19723 by reflexivity.
    unfold JsDate.msPerDay. lia.
  - change (JsDate.civilFromDays 19724) with (2024, 1, 2). cbv iota beta.
    replace (JsDate.daysFromCivil (2024 + (1 - 1) / 12) ((1 - 1) mod 12 + 1) 1)
      with 19723 by reflexivity.
    unfold JsDate.msPerDay. lia.
Qed.

Lemma fixedZone_bounded (c : Z) :
  - JsDate.msPerDay <= c <= JsDate.msPerDay -> boundedZone (JsDate.fixedZone c).
Proof. intros H t. simpl. tauto. Qed.

Lemma parseDigits_nonneg (ds : string) (acc : Z) :
  JsString.allDigits ds = true -> 0 <= acc -> 0 <= JsString.parseDigits acc ds.
Proof.
  revert acc. induction ds as [|c ds IH]; simpl; intros acc Hd Hacc; [assumption|].
  apply andb_true_iff in Hd. destruct Hd as [Hc Hd]. apply IH; [assumption|].
  unfold JsString.isDigit in Hc. lia.
Qed.

Lemma takeDigits_allDigits (s : string) :
  JsString.allDigits (JsString.takeDigits s) = true.
Proof.
  induction s as [|c s IH]; simpl; [reflexivity|].
  destruct (JsString.isDigit c) eqn:E; simpl; [now rewrite E | reflexivity].
Qed.

Lemma matchWeekDigits_allDigits (s ds : string) :
  JsString.matchWeekDigits s = Some ds -> JsString.allDigits ds = true.
Proof.
  induction s as [|c s IH]; [discriminate|].
  unfold JsString.matchWeekDigits; fold JsString.matchWeekDigits.
  destruct (JsString.stripWeek (String c s)) as [rest|]; [|exact IH].
  destruct (JsString.isEmpty (JsString.takeDigits rest)); [exact IH|].
  intros E. inversion E. apply takeDigits_allDigits.
Qed.

Lemma toDouble_nonneg (n : Z) : 0 <= n -> 0 <= JsString.toDouble n.
Proof.
  intros Hn. unfold JsString.toDouble. destruct (Z.ltb_spec n (2 ^ 53)); [assumption|].
  cbv zeta. apply Z.min_glb; [|apply Z.pow_nonneg; lia].
  assert (Hp : 0 < 2 ^ (Z.log2 n - 52)).
  { apply Z.pow_pos_nonneg; [lia|]. assert (53 <= Z.log2 n); [|lia].
    apply Z.log2_le_pow2; lia. }
  assert (Hq : 0 <= n / 2 ^ (Z.log2 n - 52)) by (apply Z.div_pos; lia).
  destruct (_ || _); nia.
Qed.

(** Up to 2^53 the number parsed is the integer written. *)
Lemma toDouble_exact (n : Z) : n <= 2 ^ 53 -> JsString.toDouble n = n.
Proof.
  intros Hn. unfold JsString.toDouble. destruct (Z.ltb_spec n (2 ^ 53)); [reflexivity|].
  assert (E : n = 2 ^ 53) by lia. subst n. vm_compute. reflexivity.
Qed.

Lemma decimal_parseDigits (ds : string) (acc : Z) :
  fold_left (fun acc c => 10 * acc + (Z.of_N (N_of_ascii c) - 48))
            (list_ascii_of_string ds) acc
  = JsString.parseDigits acc ds.
Proof.
revert acc. induction ds as [|c ds IH]; intros acc; [reflexivity|].
cbn [list_ascii_of_string fold_left JsString.parseDigits]. apply IH.
Qed.

(** Up to 2^53 the number parsed is the number the digits write. *)
Lemma parseInt_decimal (ds : string) :
  decimal ds <= 9007199254740992 -> JsString.parseInt ds = decimal ds.
Proof.
  unfold JsString.parseInt, decimal. rewrite decimal_parseDigits. apply toDouble_exact.
Qed.

Lemma extractWeekNumber_nonneg (weekDir : string) :
  0 <= DataProcessor.extractWeekNumber weekDir.
Proof.
  unfold DataProcessor.extractWeekNumber, JsString.parseInt.
  destruct (JsString.matchWeekDigits weekDir) as [ds|] eqn:E; [|lia].
  apply toDouble_nonneg.
  apply parseDigits_nonneg; [|lia]. now apply (matchWeekDigits_allDigits weekDir).
Qed.

(** In a zone of constant offset the anchor is the epoch moved by whole
    weeks; it throws exactly when that instant is beyond the range of
    [Date]. *)
Lemma calculateWeekStartDate_fixedZone (c : Z) (weekDir : string) :
  - JsDate.msPerDay <= c <= JsDate.msPerDay ->
  let n := DataProcessor.extractWeekNumber weekDir in
  DataProcessor.calculateWeekStartDate (JsDate.fixedZone c) weekDir
  = if n <=? 14282897
    then Ok (JsDate.isoDate (JsDate.civilFromDays (19723 + (n - 1) * 7)))
    else Throw (RangeError "Invalid time value").
Proof.
  intros Hc n. pose proof (extractWeekNumber_nonneg weekDir) as Hn. fold n in Hn.
  rewrite calculateWeekStartDate_eq. fold n.
  rewrite setDate_getDate_shift by now apply fixedZone_bounded.
  unfold JsDate.UTC, JsDate.LocalTime, JsDate.fixedZone; cbn [JsDate.offsetAtUTC JsDate.offsetAtLocal].
  change JsDate.date_2024_01_01 with (19723 * 86400000).
  unfold JsDate.msPerDay, JsDate.TimeClip, JsDate.maxTime.
  replace (19723 * 86400000 + c + (n - 1) * 7 * 86400000 - c)
    with ((19723 + (n - 1) * 7) * 86400000) by lia.
  destruct (Z.leb_spec n 14282897) as [Hle|Hgt].
  - destruct (Z.leb_spec (Z.abs ((19723 + (n - 1) * 7) * 86400000)) 8640000000000000);
      [|lia].
    unfold JsDate.Day, JsDate.msPerDay. now rewrite Z.div_mul by lia.
  - destruct (Z.leb_spec (Z.abs ((19723 + (n - 1) * 7) * 86400000)) 8640000000000000);
      [lia | reflexivity].
Qed.

(** Beyond the year 9999 the date part is no longer YYYY-MM-DD. *)
Example calculateWeekStartDate_year_10000 :
  DataProcessor.calculateWeekStartDate Sample.utc "week416168" = Ok "9999-12-27"
  /\ DataProcessor.calculateWeekStartDate Sample.utc "week416169" = Ok "+010000-01-03".
Proof. split; vm_compute; reflexivity. Qed.

(** Where the offset changes with the season, [setDate] keeps the local
    hour and the UTC date read back can fall on the day before. *)
Example calculateWeekStartDate_daylight_saving :
  DataProcessor.calculateWeekStartDate Sample.newYork "week2" = Ok "2024-01-08"
  /\ DataProcessor.calculateWeekStartDate Sample.newYork "week20" = Ok "2024-05-12"
  /\ anchorDate 20 = "2024-05-13".
Proof. repeat split; vm_compute; reflexivity. Qed.

Lemma calculateWeekStartDate_bounded (tz : JsDate.TimeZone) (weekDir : string) :
  boundedZone tz ->
  DataProcessor.extractWeekNumber weekDir <= 14000000 ->
  exists date, DataProcessor.calculateWeekStartDate tz weekDir = Ok date.
Proof.
  intros Hb Hn. pose proof (extractWeekNumber_nonneg weekDir) as Hn0.
  rewrite calculateWeekStartDate_eq, setDate_getDate_shift by assumption.
  unfold JsDate.TimeClip, JsDate.UTC, JsDate.LocalTime.
  match goal with |- context [Z.abs ?t <=? _] => remember t as u eqn:Eu end.
  destruct (Z.leb_spec (Z.abs u) JsDate.maxTime) as [_|Hu]; [eauto|].
  exfalso. subst u.
  match type of Hu with context [JsDate.offsetAtLocal tz ?t] =>
    destruct (Hb t) as [_ Hl] end.
  destruct (Hb JsDate.date_2024_01_01) as [Ho _].
  change JsDate.date_2024_01_01 with 1704067200000 in *.
  unfold JsDate.msPerDay, JsDate.maxTime in *. lia.
Qed.

Lemma calculateWeekStartDate_throws (tz : JsDate.TimeZone) (weekDir : string) (e : exn) :
  DataProcessor.calculateWeekStartDate tz weekDir = Throw e ->
  e = RangeError "Invalid time value".
Proof.
  rewrite calculateWeekStartDate_eq.
  destruct (JsDate.setDate _ _ _); [discriminate | congruence].
Qed.

(** ** The aggregator *)

Lemma addResult_weekNumber (w : WeekData) (r : ProcessingResult) :
  weekNumber (DataProcessor.addResultToWeekData w r) = weekNumber w
  /\ weekDate (DataProcessor.addResultToWeekData w r) = weekDate w.
Proof.
  unfold DataProcessor.addResultToWeekData.
  destruct (String.eqb _ DayOfWeek_WEEKLY); split; reflexivity.
Qed.

Lemma fold_addResult_weekNumber (rs : list ProcessingResult) (w : WeekData) :
  weekNumber (fold_left DataProcessor.addResultToWeekData rs w) = weekNumber w
  /\ weekDate (fold_left DataProcessor.addResultToWeekData rs w) = weekDate w.
Proof.
  revert w. induction rs as [|r rs IH]; intros w; simpl; [tauto|].
  destruct (IH (DataProcessor.addResultToWeekData w r)) as [-> ->].
  apply addResult_weekNumber.
Qed.

Lemma filter_success_idem (rs : list ProcessingResult) :
  List.filter success (List.filter success rs) = List.filter success rs.
Proof.
  induction rs as [|r rs IH]; simpl; [reflexivity|].
  destruct (success r) eqn:E; simpl; [rewrite E; f_equal|]; exact IH.
Qed.

Lemma filter_success_nil (rs : list ProcessingResult) :
  List.filter success rs = [] <-> Forall (fun r => success r = false) rs.
Proof.
  induction rs as [|r rs IH]; simpl.
  - split; [constructor | reflexivity].
  - destruct (success r) eqn:E.
    + split; [discriminate|]. intros H. inversion H; congruence.
    + rewrite IH. split; [now constructor | now inversion 1].
Qed.

Lemma filter_success_cons (rs : list ProcessingResult) :
  Exists (fun r => success r = true) rs ->
  exists r rest, List.filter success rs = r :: rest.
Proof.
  intros H. destruct (List.filter success rs) as [|r rest] eqn:E; [|eauto].
  apply filter_success_nil in E. apply List.Exists_exists in H.
  destruct H as (r & Hin & Hr). rewrite List.Forall_forall in E.
  specialize (E r Hin). congruence.
Qed.

(** The week built from the successful results once the anchor date is
    known. *)
Lemma processResults_ok (tz : JsDate.TimeZone) (now : string)
  (rs : list ProcessingResult) (date : string) :
  List.filter success rs <> [] ->
  DataProcessor.calculateWeekStartDate tz
    (DataProcessor.firstWeekName (List.filter success rs)) = Ok date ->
  DataProcessor.processResults tz now rs
  = Ok {| weeks :=
            [ let w :=
                fold_left DataProcessor.addResultToWeekData (List.filter success rs)
                  {| weekNumber := DataProcessor.extractWeekNumber
                                     (DataProcessor.firstWeekName (List.filter success rs));
                     weekDate := date; dailyData := []; weeklyData := [] |} in
              setDailyData w (DataProcessor.sortDailyData (dailyData w)) ];
          metadata := {| totalWeeks := 1;
                         totalScreenshots := Z.of_nat (length (List.filter success rs));
                         extractedAt := now |} |}.
Proof.
  intros Hne Hd. unfold DataProcessor.processResults.
  destruct (List.filter success rs) as [|r rest] eqn:E; [congruence|].
  cbn [length Nat.eqb]. rewrite Hd. reflexivity.
Qed.

Lemma processResults_filter (tz : JsDate.TimeZone) (now : string)
  (rs : list ProcessingResult) :
  DataProcessor.processResults tz now rs
  = DataProcessor.processResults tz now (List.filter success rs).
Proof.
  unfold DataProcessor.processResults. now rewrite filter_success_idem.
Qed.

Lemma processResults_empty_iff (tz : JsDate.TimeZone) (now : string)
  (rs : list ProcessingResult) :
  DataProcessor.processResults tz now rs = Throw DataProcessor.noSuccessfulResults
  <-> Forall (fun r => success r = false) rs.
Proof.
  rewrite <- filter_success_nil. unfold DataProcessor.processResults.
  destruct (List.filter success rs) as [|r rest] eqn:E; cbn [length Nat.eqb].
  - tauto.
  - split; [|discriminate].
    destruct (DataProcessor.calculateWeekStartDate tz _) as [d|e] eqn:Hc; cbn [bind];
      [discriminate|].
    apply calculateWeekStartDate_throws in Hc. subst e. discriminate.
Qed.




Lemma isoDate_anchorDate (n : Z) :
  0 <= n <= 416168 ->
  JsDate.isoDate (JsDate.civilFromDays (19723 + (n - 1) * 7)) = anchorDate n.
Proof.
  intros Hn. unfold anchorDate.
  change (JsDate.daysFromCivil 2024 1 1) with 19723.
  pose proof (civilFromDays_range (19723 + (n - 1) * 7) ltac:(lia)) as Hr.
  destruct (JsDate.civilFromDays (19723 + (n - 1) * 7)) as [[y m] d].
  unfold JsDate.isoDate, JsDate.isoYear.
  destruct (Z.leb_spec 0 y); [|lia]. destruct (Z.leb_spec y 9999); [|lia].
  reflexivity.
Qed.

Lemma civilFromDays_years (z : Z) :
  0 <= z <= 2932896 ->
  let '(y, m, d) := JsDate.civilFromDays z in
  0 <= y <= 9999 /\ 1 <= m <= 12 /\ 1 <= d <= 31.
Proof.
  intros Hz. unfold JsDate.civilFromDays.
  remember (z + 719468) as z' eqn:Ez.
  remember (z' / 146097) as era eqn:Eera.
  remember (z' - era * 146097) as doe eqn:Edoe.
  remember ((doe - doe / 1460 + doe / 36524 - doe / 146096) / 365) as yoe eqn:Eyoe.
  remember (doe - (365 * yoe + yoe / 4 - yoe / 100)) as doy eqn:Edoy.
  remember ((5 * doy + 2) / 153) as mp eqn:Emp.
  assert (0 <= era <= 24) by (Z.div_mod_to_equations; lia).
  assert (0 <= doe <= 146096) by (Z.div_mod_to_equations; lia).
  assert (era = 24 -> doe <= 146036) by lia.
  assert (0 <= yoe <= 399) by (Z.div_mod_to_equations; lia).
  assert (0 <= doy <= 365) by (Z.div_mod_to_equations; lia).
  assert (0 <= mp <= 11) by (Z.div_mod_to_equations; lia).
  assert (era = 24 -> yoe = 399 -> mp <= 9) by (Z.div_mod_to_equations; lia).
  assert (1 <= doy - (153 * mp + 2) / 5 + 1 <= 31) by (Z.div_mod_to_equations; lia).
  destruct (Z.ltb_spec mp 10);
    match goal with |- context [?a <=? 2] => destruct (Z.leb_spec a 2) end; lia.
Qed.

Lemma anchorDate_calendarDate (n : Z) :
  anchorDate n = calendarDate (JsDate.daysFromCivil 2024 1 1 + (n - 1) * 7).
Proof. unfold anchorDate, calendarDate. reflexivity. Qed.

Lemma isoDate_calendarDate (z : Z) :
  0 <= z <= 2932896 ->
  JsDate.isoDate (JsDate.civilFromDays z) = calendarDate z.
Proof.
  intros Hz. unfold calendarDate. pose proof (civilFromDays_years z Hz) as Hr.
  destruct (JsDate.civilFromDays z) as [[y m] d].
  unfold JsDate.isoDate, JsDate.isoYear.
  destruct (Z.leb_spec 0 y); [|lia]. destruct (Z.leb_spec y 9999); [|lia].
  reflexivity.
Qed.

(** The anchor in any zone: [setDate] moves the local date by whole
    days and [toISOString] reads the UTC date of the instant reached, so
    the date is the epoch day plus the days moved plus as many whole days
    as the offset at the epoch exceeds the offset in force at the local
    time reached, rounded down. *)
Lemma calculateWeekStartDate_zone (tz : JsDate.TimeZone) (weekDir : string) :
  boundedZone tz ->
  let n := DataProcessor.extractWeekNumber weekDir in
  n <= 416168 ->
  let o0 := JsDate.offsetAtUTC tz JsDate.date_2024_01_01 in
  let o1 := JsDate.offsetAtLocal tz
              (JsDate.date_2024_01_01 + o0 + (n - 1) * 7 * JsDate.msPerDay) in
  DataProcessor.calculateWeekStartDate tz weekDir
  = Ok (calendarDate (JsDate.daysFromCivil 2024 1 1 + (n - 1) * 7
                      + (o0 - o1) / JsDate.msPerDay)).
Proof.
  intros Hb n Hn o0 o1. pose proof (extractWeekNumber_nonneg weekDir) as Hn0. fold n in Hn0.
  rewrite calculateWeekStartDate_eq. fold n.
  rewrite setDate_getDate_shift by exact Hb.
  unfold JsDate.UTC, JsDate.LocalTime. fold o0. fold o1.
  destruct (Hb JsDate.date_2024_01_01) as [Ho0 _]. fold o0 in Ho0.
  destruct (Hb (JsDate.date_2024_01_01 + o0 + (n - 1) * 7 * JsDate.msPerDay)) as [_ Ho1].
  fold o1 in Ho1.
  change (JsDate.daysFromCivil 2024 1 1) with 19723.
  change JsDate.date_2024_01_01 with (19723 * 86400000) in *.
  unfold JsDate.msPerDay, JsDate.TimeClip, JsDate.maxTime in *.
  replace (19723 * 86400000 + o0 + (n - 1) * 7 * 86400000 - o1)
    with ((19723 + (n - 1) * 7) * 86400000 + (o0 - o1)) by lia.
  destruct (Z.leb_spec (Z.abs ((19723 + (n - 1) * 7) * 86400000 + (o0 - o1)))
                       8640000000000000); [|lia].
  unfold JsDate.Day, JsDate.msPerDay. rewrite Z.div_add_l by lia.
  rewrite isoDate_calendarDate; [reflexivity|].
  assert (-2 <= (o0 - o1) / 86400000 <= 2) by (Z.div_mod_to_equations; lia).
  lia.
Qed.

Lemma div_day_before (a : Z) :
  - JsDate.msPerDay <= a < 0 -> a / JsDate.msPerDay = -1.
Proof. unfold JsDate.msPerDay. intros H. Z.div_mod_to_equations. lia. Qed.

Lemma newYork_bounded : boundedZone Sample.newYork.
Proof.
  intros t. unfold Sample.newYork, JsDate.msPerDay.
  cbn [JsDate.offsetAtUTC JsDate.offsetAtLocal].
  destruct (_ && _); destruct (_ && _); lia.
Qed.


Lemma processResults_throw (tz : JsDate.TimeZone) (now : string)
  (rs : list ProcessingResult) (label : string) (e : exn) :
  DataProcessor.firstWeekName (List.filter success rs) = label ->
  DataProcessor.calculateWeekStartDate tz label = Throw e ->
  exists e', DataProcessor.processResults tz now rs = Throw e'.
Proof.
  intros El Hd. unfold DataProcessor.processResults.
  destruct (List.filter success rs) as [|r rest] eqn:E; cbn [length Nat.eqb]; [eauto|].
  rewrite El, Hd. cbn [bind]. eauto.
Qed.

Lemma extractWeekNumber_decimal (label : string) :
  match JsString.matchWeekDigits label with
  | Some ds => decimal ds
  | None => 0
  end <= 9007199254740992 ->
  DataProcessor.extractWeekNumber label
  = match JsString.matchWeekDigits label with
    | Some ds => decimal ds
    | None => 0
    end.
Proof.
  unfold DataProcessor.extractWeekNumber.
  destruct (JsString.matchWeekDigits label) as [ds|]; [|reflexivity].
  apply parseInt_decimal.
Qed.

(** The period number of a returned week is read in the label of the
    first success. *)
Lemma period_number_core (tz : JsDate.TimeZone) (now : string)
  (rs : list ProcessingResult) (label : string) (x : ExtractedData) :
  DataProcessor.firstWeekName (List.filter success rs) = label ->
  DataProcessor.processResults tz now rs = Ok x ->
  exists w, weeks x = [w] /\ weekNumber w = DataProcessor.extractWeekNumber label.
Proof.
  intros El.
  destruct (DataProcessor.calculateWeekStartDate tz label) as [date|e] eqn:Hd.
  - destruct (List.filter success rs) as [|r rest] eqn:E.
    + apply filter_success_nil in E. apply (processResults_empty_iff tz now) in E.
      rewrite E. discriminate.
    + rewrite (processResults_ok tz now rs date); [|congruence|now rewrite E, El].
      intros Hx. inversion Hx as [Ex]. eexists. split; [reflexivity|].
      cbv zeta. cbn [setDailyData weekNumber].
      match goal with |- context [fold_left _ ?l ?w0] =>
        destruct (fold_addResult_weekNumber l w0) as [-> _] end.
      cbn [weekNumber]. now rewrite E, El.
  - destruct (processResults_throw tz now rs label e El Hd) as [e' ->]. discriminate.
Qed.

Lemma period_anchor_core (tz : JsDate.TimeZone) (now : string)
  (rs : list ProcessingResult) (label : string) (n : Z) :
  DataProcessor.firstWeekName (List.filter success rs) = label ->
  List.filter success rs <> [] ->
  DataProcessor.extractWeekNumber label = n ->
  n <= 416168 ->
  boundedZone tz ->
  let o0 := JsDate.offsetAtUTC tz JsDate.date_2024_01_01 in
  let o1 := JsDate.offsetAtLocal tz
              (JsDate.date_2024_01_01 + o0 + (n - 1) * 7 * JsDate.msPerDay) in
  exists w md,
    DataProcessor.processResults tz now rs = Ok {| weeks := [w]; metadata := md |}
    /\ weekNumber w = n
    /\ weekDate w
       = calendarDate (JsDate.daysFromCivil 2024 1 1 + (n - 1) * 7
                       + (o0 - o1) / JsDate.msPerDay)
    /\ (o1 <= o0 < o1 + JsDate.msPerDay -> weekDate w = anchorDate n)
    /\ (o0 < o1 <= o0 + JsDate.msPerDay ->
        weekDate w = calendarDate (JsDate.daysFromCivil 2024 1 1 + (n - 1) * 7 - 1)).
Proof.
  intros El Hne En Hn Hb o0 o1.
  pose proof (calculateWeekStartDate_zone tz label Hb) as Hd.
  cbv zeta in Hd. rewrite En in Hd. specialize (Hd Hn). fold o0 in Hd. fold o1 in Hd.
  remember (calendarDate (JsDate.daysFromCivil 2024 1 1 + (n - 1) * 7
                          + (o0 - o1) / JsDate.msPerDay)) as date eqn:Edate.
  rewrite (processResults_ok tz now rs date); [|exact Hne|now rewrite El].
  do 2 eexists. split; [reflexivity|].
  cbv zeta. cbn [setDailyData weekNumber weekDate].
  match goal with |- context [fold_left _ ?l ?w0] =>
    destruct (fold_addResult_weekNumber l w0) as [-> ->] end.
  cbn [weekNumber weekDate]. rewrite El.
  split; [exact En|]. split; [reflexivity|]. split.
  - intros Ho. rewrite Edate, anchorDate_calendarDate. f_equal.
    assert (Hq : (o0 - o1) / JsDate.msPerDay = 0)
      by (apply Z.div_small; unfold JsDate.msPerDay in *; lia).
    rewrite Hq. apply Z.add_0_r.
  - intros Ho. rewrite Edate. f_equal.
    assert (Hq : (o0 - o1) / JsDate.msPerDay = -1)
      by (apply div_day_before; unfold JsDate.msPerDay in *; lia).
    rewrite Hq. generalize (JsDate.daysFromCivil 2024 1 1 + (n - 1) * 7).
    intros z. lia.
Qed.



(** ** Validation *)

Lemma size_list_to_set_le (l : list Z) :
  (size (list_to_set l : gset Z) <= length l)%nat.
Proof.
induction l as [|x l IH].
- rewrite list_to_set_nil, size_empty. cbn [length]. lia.
- rewrite list_to_set_cons. cbn [length].
  destruct (decide (x ∈ (list_to_set l : gset Z))) as [Hin|Hout].
  + rewrite (subseteq_union_1_L {[x]} (list_to_set l : gset Z))
      by now apply singleton_subseteq_l.
    lia.
  + rewrite size_union by set_solver. rewrite size_singleton. lia.
Qed.

(** [ranks.length !== new Set(ranks).size] holds exactly when a rank
    occurs twice. *)
Lemma uniqueRanksSize_NoDup (ranks : list Z) :
  length ranks = DataProcessor.uniqueRanksSize ranks <-> NoDup ranks.
Proof.
unfold DataProcessor.uniqueRanksSize. split.
- induction ranks as [|x l IH]; intros H; [constructor|].
  rewrite list_to_set_cons in H. cbn [length] in H.
  destruct (decide (x ∈ (list_to_set l : gset Z))) as [Hin|Hout].
  + rewrite (subseteq_union_1_L {[x]} (list_to_set l : gset Z)) in H
      by now apply singleton_subseteq_l.
    pose proof (size_list_to_set_le l). lia.
  + rewrite size_union in H by set_solver. rewrite size_singleton in H.
    constructor; [set_solver | apply IH; lia].
- intros H. symmetry. now apply size_list_to_set.
Qed.

Lemma isEmpty_spec (s : string) : JsString.isEmpty s = true <-> s = "".
Proof. destruct s; simpl; split; (reflexivity || discriminate). Qed.

Lemma includesString_spec (l : list string) (s : string) :
  includesString l s = true <-> s ∈ l.
Proof.
unfold includesString. rewrite existsb_exists, list_elem_of_In. split.
- intros (x & Hin & E). apply String.eqb_eq in E. now subst.
- intros Hin. exists s. split; [assumption | apply String.eqb_refl].
Qed.

Lemma dayIssues_bucketIssues (d : DayData) :
  DataProcessor.dayIssues d = bucketIssues d.
Proof.
unfold DataProcessor.dayIssues, bucketIssues. f_equal.
- case_bool_decide as Hin.
  + apply includesString_spec in Hin as Hb. rewrite Hb.
    destruct (day d) eqn:E; [|reflexivity].
    exfalso. vm_compute in Hb. discriminate.
  + destruct (includesString DayOfWeek_values (day d)) eqn:Hb.
    * apply includesString_spec in Hb. contradiction.
    * now rewrite orb_true_r.
- destruct (entries d) as [|e es]; [reflexivity|].
  change ((length (e :: es) =? 0)%nat) with false. cbv iota zeta. cbn [app].
  remember (map rank (e :: es)) as ranks eqn:Er. clear Er.
  case_bool_decide as Hn.
  + apply uniqueRanksSize_NoDup in Hn. rewrite Hn, Nat.eqb_refl. reflexivity.
  + destruct (Nat.eqb_spec (length ranks) (DataProcessor.uniqueRanksSize ranks))
      as [E|E]; [|reflexivity].
    apply uniqueRanksSize_NoDup in E. contradiction.
Qed.


(** ** The week pattern *)

Lemma stripWeek_spec (name rest : string) :
  JsString.stripWeek name = Some rest
  <-> exists w, name = w +:+ rest /\ JsString.toLowerCase w = "week".
Proof.
split.
- destruct name as [|a [|b [|c [|d r]]]]; try discriminate.
  unfold JsString.stripWeek.
  destruct (Ascii.eqb_spec (JsString.toLowerChar a) "w"); [|discriminate].
  destruct (Ascii.eqb_spec (JsString.toLowerChar b) "e"); [|discriminate].
  destruct (Ascii.eqb_spec (JsString.toLowerChar c) "e"); [|discriminate].
  destruct (Ascii.eqb_spec (JsString.toLowerChar d) "k"); [|discriminate].
  intros E. inversion E; subst.
  exists (String a (String b (String c (String d "")))). split; [reflexivity|].
  simpl. congruence.
- intros (w & -> & Hw).
  destruct w as [|a [|b [|c [|d [|x w]]]]]; try discriminate.
  simpl in Hw.
  assert (Ha : JsString.toLowerChar a = "w"%char) by congruence.
  assert (Hb : JsString.toLowerChar b = "e"%char) by congruence.
  assert (Hc : JsString.toLowerChar c = "e"%char) by congruence.
  assert (Hd : JsString.toLowerChar d = "k"%char) by congruence.
  unfold JsString.stripWeek. simpl. rewrite Ha, Hb, Hc, Hd. reflexivity.
Qed.

(** The multi-week copy accepts exactly the period pattern. *)
Lemma multi_isWeekDirectory_spec (name : string) :
  FileSystemUtilsMulti.isWeekDirectory name = true <-> periodPattern name.
Proof.
unfold FileSystemUtilsMulti.isWeekDirectory, periodPattern. split.
- destruct (JsString.stripWeek name) as [rest|] eqn:E; [|discriminate].
  apply stripWeek_spec in E. destruct E as (w & -> & Hw). eauto.
- intros (w & ds & -> & Hw & Hd).
  assert (E : JsString.stripWeek (w +:+ ds) = Some ds) by (apply stripWeek_spec; eauto).
  now rewrite E.
Qed.

(** The single-week resolver asks for at least one digit. *)
Lemma isWeekDirectory_spec (name : string) :
  FileSystemUtils.isWeekDirectory name = true
  <-> exists w ds, name = w +:+ ds
        /\ JsString.toLowerCase w = "week" /\ ds <> "" /\ JsString.allDigits ds = true.
Proof.
unfold FileSystemUtils.isWeekDirectory. split.
- destruct (JsString.stripWeek name) as [rest|] eqn:E; [|discriminate].
  apply stripWeek_spec in E. destruct E as (w & -> & Hw).
  intros H. apply andb_true_iff in H. destruct H as [Hne Hd].
  exists w, rest. repeat split; try assumption.
  intros ->. discriminate.
- intros (w & ds & -> & Hw & Hne & Hd).
  assert (E : JsString.stripWeek (w +:+ ds) = Some ds) by (apply stripWeek_spec; eauto).
  rewrite E, Hd. destruct ds; [congruence | reflexivity].
Qed.

(** C5 (the single-week resolver departs from it).  The names [week] and
    [Week] have the form the specification describes, and the multi-week copy of
    the resolver accepts them as its comment announces; the single-week
    resolver rejects both, while accepting [week1] and [WEEK23]. *)
Theorem isWeekDirectory_rejects_bare_week :
  periodPattern "week" /\ periodPattern "Week"
  /\ FileSystemUtilsMulti.isWeekDirectory "week" = true
  /\ FileSystemUtilsMulti.isWeekDirectory "Week" = true
  /\ FileSystemUtils.isWeekDirectory "week" = false
  /\ FileSystemUtils.isWeekDirectory "Week" = false
  /\ FileSystemUtils.isWeekDirectory "week1" = true
  /\ FileSystemUtils.isWeekDirectory "WEEK23" = true.
Proof.
split; [|split]; [| |repeat split; reflexivity].
- exists "week", "". repeat split.
- exists "Week", "". repeat split.
Qed.

(** ** The most recent week *)

Lemma directoriesNamed_dirents (accept : string -> bool) (children : list (string * node)) :
  map Dirent.name
    (List.filter (fun entry => Dirent.isDirectory entry && accept (Dirent.name entry))
       (map (fun c => {| Dirent.name := fst c; Dirent.isDirectory := Fs.isDir (snd c) |})
            children))
  = directoriesNamed accept children.
Proof.
unfold directoriesNamed. induction children as [|c cs IH]; simpl; [reflexivity|].
destruct (Fs.isDir (snd c) && accept (fst c)); simpl; now rewrite IH.
Qed.

Lemma directoriesNamed_find (accept : string -> bool) (children : list (string * node))
  (name : string) :
  In name (directoriesNamed accept children) ->
  exists c, find (fun c => String.eqb (fst c) name) children = Some c
            /\ fst c = name /\ In c children.
Proof.
unfold directoriesNamed. rewrite in_map_iff. intros (c & Hc & Hin).
apply filter_In in Hin. destruct Hin as [Hin _].
destruct (find (fun c => String.eqb (fst c) name) children) as [c'|] eqn:F.
- apply find_some in F. destruct F as [Hin' E]. apply String.eqb_eq in E. eauto.
- exfalso. apply (find_none _ _ F) in Hin. rewrite Hc, String.eqb_refl in Hin. discriminate.
Qed.

Lemma directoriesNamed_In (accept : string -> bool) (children : list (string * node))
  (name : string) :
  In name (directoriesNamed accept children) ->
  exists n, In (name, n) children /\ Fs.isDir n = true /\ accept name = true.
Proof.
unfold directoriesNamed. rewrite in_map_iff. intros ([nm n] & E & Hin).
simpl in E. subst nm. apply filter_In in Hin. destruct Hin as [Hin Hp].
apply andb_true_iff in Hp. simpl in Hp. exists n. tauto.
Qed.

Lemma takeDigits_all (ds : string) :
  JsString.allDigits ds = true -> JsString.takeDigits ds = ds.
Proof.
induction ds as [|c ds IH]; [reflexivity|].
cbn [JsString.allDigits JsString.takeDigits]. intros H.
apply andb_true_iff in H. destruct H as [Hc Hd]. now rewrite Hc, IH.
Qed.

Lemma substring_all (s : string) : substring 0 (String.length s) s = s.
Proof. induction s as [|c s IH]; [reflexivity|]. cbn [String.length substring]. now rewrite IH. Qed.

(** A name the week pattern accepts is [week], in some letter case,
    followed by its trailing digits, and there is at least one. *)
Lemma isWeekDirectory_trailing (name : string) :
  FileSystemUtils.isWeekDirectory name = true ->
  JsString.matchWeekDigits name = Some (trailingDigits name)
  /\ JsString.allDigits (trailingDigits name) = true
  /\ trailingDigits name <> "".
Proof.
intros H. apply isWeekDirectory_spec in H.
destruct H as (w & ds & -> & Hw & Hne & Hd).
destruct w as [|a [|b [|c [|d [|x w]]]]]; try discriminate.
assert (Et : trailingDigits (String a (String b (String c (String d ""))) +:+ ds) = ds).
{ unfold trailingDigits.
  change (String a (String b (String c (String d ""))) +:+ ds)
    with (String a (String b (String c (String d ds)))).
  cbn [String.length Nat.sub substring]. rewrite Nat.sub_0_r. apply substring_all. }
rewrite Et. split; [|split; assumption].
assert (E : JsString.stripWeek (String a (String b (String c (String d ""))) +:+ ds) = Some ds)
  by (apply stripWeek_spec; eauto).
change (String a (String b (String c (String d ""))) +:+ ds)
  with (String a (String b (String c (String d ds)))) in *.
unfold JsString.matchWeekDigits; fold JsString.matchWeekDigits.
rewrite E, takeDigits_all by assumption.
destruct ds; [congruence | reflexivity].
Qed.

(** The number the comparator reads in a candidate is the number its
    trailing digits write, as long as a double holds that number
    exactly. *)
Lemma getWeekNumber_trailingNumber (name : string) :
  FileSystemUtils.isWeekDirectory name = true ->
  trailingNumber name <= 9007199254740992 ->
  FileSystemUtils.getWeekNumber name = trailingNumber name.
Proof.
intros H Hb. destruct (isWeekDirectory_trailing name H) as (Hm & _ & _).
unfold FileSystemUtils.getWeekNumber. rewrite Hm.
now apply parseInt_decimal.
Qed.

Lemma lexLe_refl (a : string) : lexLe a a.
Proof.
unfold lexLe. assert (E : String.compare a a = Eq).
{ induction a as [|c a IH]; [reflexivity|]. cbn [String.compare].
  unfold Ascii.compare. now rewrite N.compare_refl. }
rewrite E. discriminate.
Qed.

Lemma StronglySorted_directoriesNamed (R : string -> string -> Prop)
  (accept : string -> bool) (children : list (string * node)) :
  StronglySorted R (map fst children) ->
  StronglySorted R (directoriesNamed accept children).
Proof.
unfold directoriesNamed. induction children as [|c cs IH]; cbn [map List.filter]; intros Hs;
  [constructor|].
inversion Hs as [|? ? Hs' Hc]; subst.
destruct (Fs.isDir (snd c) && accept (fst c)); [|auto].
cbn [map]. constructor; [auto|].
apply List.Forall_forall. intros y Hy. rewrite List.Forall_forall in Hc. apply Hc.
apply in_map_iff in Hy. destruct Hy as (x & <- & Hx). apply filter_In in Hx.
apply in_map. tauto.
Qed.

Lemma StronglySorted_before {A : Type} (R : A -> A -> Prop) (pre post : list A) (x y : A) :
  StronglySorted R (pre ++ x :: post) -> In y pre -> R y x.
Proof.
induction pre as [|a pre IH]; cbn [app]; intros Hs Hy; [contradiction|].
inversion Hs as [|? ? Hs' Ha]; subst. destruct Hy as [->|Hy]; [|auto].
rewrite List.Forall_forall in Ha. apply Ha, in_or_app. right. now left.
Qed.

(** C6 (the resolver departs from it on names without digits).  When the
    root's own name is not a week name for the resolver, its candidates
    are the subdirectories named [week], in any letter case, followed by
    at least one digit.  Their numbers being numbers a double holds
    exactly, the resolver answers [null] if there is no candidate and
    otherwise picks a candidate whose trailing digits write the greatest
    number; of several candidates with that number it picks the one the
    listing reports last, which is the lexically greatest of them when the
    listing is in the order of the names.  A subdirectory named [week]
    alone is no candidate, although it has the form of a period name and
    the other copy of the resolver takes it: a root that holds nothing
    else has no week for the resolver. *)
Theorem findMostRecentWeekDir_selects (basePath : string) (size birthtime : Z)
  (children : list (string * node)) :
  FileSystemUtils.isWeekDirectory (Path.basename basePath) = false ->
  let names := directoriesNamed FileSystemUtils.isWeekDirectory children in
  Forall (fun y => trailingNumber y <= 9007199254740992) names ->
  (forall y, In y names
     <-> (exists n, In (y, n) children /\ Fs.isDir n = true)
         /\ exists w ds, y = w +:+ ds /\ JsString.toLowerCase w = "week"
                          /\ ds <> "" /\ JsString.allDigits ds = true)
  /\ (names = [] ->
      FileSystemUtils.weekPathOf basePath (Directory size birthtime children) = None)
  /\ (names <> [] ->
      exists chosen pre post n,
        FileSystemUtils.weekPathOf basePath (Directory size birthtime children)
        = Some (Path.join basePath chosen, n)
        /\ In (chosen, n) children
        /\ names = pre ++ chosen :: post
        /\ Forall (fun y => trailingNumber y <= trailingNumber chosen) pre
        /\ Forall (fun y => trailingNumber y < trailingNumber chosen) post
        /\ (StronglySorted lexLe (map fst children) ->
            forall y, In y names -> trailingNumber y = trailingNumber chosen ->
                      lexLe y chosen))
  /\ (periodPattern "week"
      /\ FileSystemUtilsMulti.isWeekDirectory "week" = true
      /\ FileSystemUtils.weekPathOf "shots" Sample.bareWeekOnly = None).
Proof.
intros Hroot names Hbound.
assert (Hnum : forall y, In y names ->
          FileSystemUtils.getWeekNumber y = trailingNumber y).
{ intros y Hy. rewrite List.Forall_forall in Hbound.
  apply getWeekNumber_trailingNumber; [|now apply Hbound].
  apply directoriesNamed_In in Hy. destruct Hy as (n & _ & _ & Hy). exact Hy. }
split; [|split; [|split]].
- intros y. split.
  + intros Hy. apply directoriesNamed_In in Hy. destruct Hy as (n & Hin & Hdir & Hacc).
    split; [now exists n|]. now apply isWeekDirectory_spec.
  + intros [(n & Hin & Hdir) Hform]. apply isWeekDirectory_spec in Hform.
    unfold names, directoriesNamed. apply in_map_iff. exists (y, n). split; [reflexivity|].
    apply filter_In. split; [exact Hin|]. cbn [fst snd]. now rewrite Hdir, Hform.
- unfold FileSystemUtils.weekPathOf. rewrite Hroot.
  unfold FileSystemUtils.findMostRecentWeekDir, Fs.readdirWithFileTypes,
    FileSystemUtils.weekDirs.
  rewrite directoriesNamed_dirents. fold names. intros ->. reflexivity.
- unfold FileSystemUtils.weekPathOf. rewrite Hroot.
  unfold FileSystemUtils.findMostRecentWeekDir, Fs.readdirWithFileTypes,
    FileSystemUtils.weekDirs.
  rewrite directoriesNamed_dirents. fold names.
  change FileSystemUtils.compareWeeks with (byKey FileSystemUtils.getWeekNumber).
  intros Hne.
  pose proof (last_sort_byKey FileSystemUtils.getWeekNumber names "" Hne) as Hl.
  remember (List.last (sort (byKey FileSystemUtils.getWeekNumber) names) "") as chosen
    eqn:Ec.
  destruct (lastGreatest_spec _ _ _ Hl) as (pre & post & Hn & Hpre & Hpost).
  assert (Hin : In chosen names) by (rewrite Hn; apply in_or_app; right; now left).
  destruct (directoriesNamed_find _ _ _ Hin) as ([nm n] & F & E & Hc).
  simpl in E. subst nm.
  exists chosen, pre, post, n.
  rewrite (sort_length (byKey FileSystemUtils.getWeekNumber) names).
  destruct names as [|x xs] eqn:En; [congruence|]. cbn [length Nat.ltb Nat.leb].
  unfold Fs.lookup. rewrite F. cbn [snd].
  split; [reflexivity|]. split; [exact Hc|]. split; [exact Hn|].
  assert (Hpre' : Forall (fun y => trailingNumber y <= trailingNumber chosen) pre).
  { apply List.Forall_forall. intros y Hy. rewrite List.Forall_forall in Hpre.
    rewrite <- (Hnum y), <- (Hnum chosen); [now apply Hpre | exact Hin |].
    rewrite Hn. apply in_or_app. now left. }
  assert (Hpost' : Forall (fun y => trailingNumber y < trailingNumber chosen) post).
  { apply List.Forall_forall. intros y Hy. rewrite List.Forall_forall in Hpost.
    rewrite <- (Hnum y), <- (Hnum chosen); [now apply Hpost | exact Hin |].
    rewrite Hn. apply in_or_app. right. now right. }
  split; [exact Hpre'|]. split; [exact Hpost'|].
  intros Hsorted y Hy Hsame.
  apply (StronglySorted_directoriesNamed lexLe FileSystemUtils.isWeekDirectory) in Hsorted.
  fold names in Hsorted. rewrite En, Hn in Hsorted. rewrite Hn in Hy.
  apply in_app_or in Hy. destruct Hy as [Hy|[<-|Hy]].
  + exact (StronglySorted_before lexLe pre post chosen y Hsorted Hy).
  + apply lexLe_refl.
  + rewrite List.Forall_forall in Hpost'. specialize (Hpost' y Hy). lia.
- split; [|split; reflexivity]. exists "week", "". repeat split.
Qed.

(** A root listed in the order of its names: [week10] has the greatest
    number and is picked, though [week9] and [week2] follow it in the
    listing and in lexical order. *)
Lemma findMostRecentWeekDir_selects_witness :
  FileSystemUtils.isWeekDirectory (Path.basename "data/shots") = false
  /\ Forall (fun y => trailingNumber y <= 9007199254740992)
            (directoriesNamed FileSystemUtils.isWeekDirectory Sample.weeksListing)
  /\ StronglySorted lexLe (map fst Sample.weeksListing)
  /\ directoriesNamed FileSystemUtils.isWeekDirectory Sample.weeksListing
     = ["week01"; "week1"; "week10"; "week2"; "week9"]
  /\ FileSystemUtils.weekPathOf "data/shots" (Directory 4096 0 Sample.weeksListing)
     = Some ("data/shots/week10", Sample.emptyDir).
Proof.
assert (Hb : Forall (fun y => trailingNumber y <= 9007199254740992)
               (directoriesNamed FileSystemUtils.isWeekDirectory Sample.weeksListing)).
{ repeat constructor; vm_compute; discriminate. }
split; [reflexivity|]. split; [exact Hb|].
split; [repeat constructor; vm_compute; discriminate|]. split; [reflexivity|].
destruct (findMostRecentWeekDir_selects "data/shots" 4096 0 Sample.weeksListing eq_refl Hb)
  as (_ & _ & H & _).
destruct H as (chosen & pre & post & n & H & _); [discriminate|].
transitivity (Some (Path.join "data/shots" chosen, n)); [exact H|].
rewrite <- H. reflexivity.
Defined.

(** ** The scan *)

Lemma string_compare_trans (a b c : string) :
  String.compare a b <> Gt -> String.compare b c <> Gt -> String.compare a c <> Gt.
Proof.
revert b c. induction a as [|x a IH]; intros [|y b] [|z c]; simpl; try congruence.
unfold Ascii.compare.
destruct (N.compare_spec (N_of_ascii x) (N_of_ascii y)) as [E1|L1|G1];
  destruct (N.compare_spec (N_of_ascii y) (N_of_ascii z)) as [E2|L2|G2];
  destruct (N.compare_spec (N_of_ascii x) (N_of_ascii z)) as [E3|L3|G3];
  try congruence; try lia.
apply IH.
Qed.

Lemma compareStrings_le (a b : string) :
  compareStrings a b <= 0 <-> String.compare a b <> Gt.
Proof.
unfold compareStrings. destruct (String.compare a b); split; (lia || congruence).
Qed.

Lemma compareStrings_trans (a b c : string) :
  compareStrings a b <= 0 -> compareStrings b c <= 0 -> compareStrings a c <= 0.
Proof. rewrite !compareStrings_le. apply string_compare_trans. Qed.

Lemma compareStrings_total (a b : string) :
  compareStrings a b <= 0 \/ compareStrings b a <= 0.
Proof.
rewrite !compareStrings_le, (String.compare_antisym a b).
destruct (String.compare b a); simpl; [left | right | left]; congruence.
Qed.

Lemma ascending_app {A : Type} (cmp : A -> A -> Z) (l1 l2 : list A) :
  ascending cmp l1 -> ascending cmp l2 ->
  (forall a b, In a l1 -> In b l2 -> cmp a b <= 0) ->
  ascending cmp (l1 ++ l2).
Proof.
unfold ascending. induction 1 as [|x l1 Hl IH Hx]; intros H2 Hc; [exact H2|].
cbn [app]. constructor.
- apply IH; [assumption|]. intros a b Ha Hb. apply Hc; [now right | assumption].
- apply Forall_app. split; [assumption|].
  apply List.Forall_forall. intros b Hb. apply Hc; [now left | assumption].
Qed.

Lemma find_fst_In {B : Type} (l : list (string * B)) (name : string) :
  In name (map fst l) ->
  exists c, find (fun c => String.eqb (fst c) name) l = Some c.
Proof.
rewrite in_map_iff. intros (c & Hc & Hin).
destruct (find (fun c => String.eqb (fst c) name) l) as [c'|] eqn:F; [eauto|].
apply (find_none _ _ F) in Hin. rewrite Hc, String.eqb_refl in Hin. discriminate.
Qed.

Lemma find_fst_unique {B : Type} (l : list (string * B)) (c : string * B) :
  NoDup (map fst l) -> In c l ->
  find (fun c' => String.eqb (fst c') (fst c)) l = Some c.
Proof.
induction l as [|x l IH]; intros Hnd Hin; [contradiction|].
cbn [map] in Hnd. apply NoDup_cons in Hnd. destruct Hnd as [Hx Hnd].
cbn [find]. destruct Hin as [->|Hin].
- now rewrite String.eqb_refl.
- destruct (String.eqb_spec (fst x) (fst c)) as [E|_]; [|auto].
  exfalso. apply Hx. rewrite E. apply list_elem_of_In, in_map. assumption.
Qed.

Lemma statFiles_ok (weekName dayDir dayPath : string) (size birthtime : Z)
  (dayChildren : list (string * node)) (files : list string) :
  (forall f, In f files -> In f (map fst dayChildren)) ->
  FileSystemUtils.statFiles weekName dayDir dayPath
    (Directory size birthtime dayChildren) files
  = Ok (map (shotOf weekName dayDir dayPath dayChildren) files).
Proof.
induction files as [|f files IH]; intros Hin; [reflexivity|].
cbn [FileSystemUtils.statFiles map]. rewrite IH by (intros; apply Hin; now right).
destruct (find_fst_In dayChildren f (Hin f (or_introl eq_refl))) as [c F].
unfold Fs.lookup, shotOf. rewrite F. reflexivity.
Qed.

Lemma scanDays_ok (weekName weekPath : string) (size birthtime : Z)
  (children : list (string * node)) (dayDirs : list string) :
  (forall d, In d dayDirs ->
     exists c, find (fun c => String.eqb (fst c) d) children = Some c
               /\ Fs.isDir (snd c) = true) ->
  FileSystemUtils.scanDays weekName weekPath (Directory size birthtime children) dayDirs
  = Ok (flat_map (dayBlock weekName weekPath children) dayDirs).
Proof.
induction dayDirs as [|d ds IH]; intros Hd; [reflexivity|].
cbn [FileSystemUtils.scanDays flat_map].
rewrite IH by (intros; apply Hd; now right).
destruct (Hd d (or_introl eq_refl)) as ([nm [s b|s b cs]] & F & Hdir); [discriminate|].
unfold Fs.lookup, dayBlock. rewrite F. cbn [snd bind].
unfold FileSystemUtils.getImageFiles, Fs.readdir. cbn [bind].
rewrite statFiles_ok; [reflexivity|].
intros f Hf.
apply (proj1 (sort_In compareStrings f _)) in Hf. apply filter_In in Hf. tauto.
Qed.

Lemma dayBlock_day (weekName weekPath : string) (children : list (string * node))
  (d : string) (f : ScreenshotFile.t) :
  In f (dayBlock weekName weekPath children d) -> ScreenshotFile.day f = d.
Proof.
unfold dayBlock.
destruct (find _ children) as [[nm [s b|s b cs]]|]; try contradiction.
rewrite in_map_iff. intros (x & <- & _). reflexivity.
Qed.

Lemma dayBlock_names (weekName weekPath : string) (children : list (string * node))
  (d : string) :
  ascending compareStrings
    (map ScreenshotFile.fileName (dayBlock weekName weekPath children d)).
Proof.
unfold dayBlock.
destruct (find _ children) as [[nm [s b|s b cs]]|]; try constructor.
rewrite map_map. cbn [shotOf ScreenshotFile.fileName]. rewrite map_id.
apply sort_ascending; [apply compareStrings_trans | apply compareStrings_total].
Qed.

Lemma StronglySorted_app_intro {A : Type} (R : A -> A -> Prop) (l1 l2 : list A) :
  StronglySorted R l1 -> StronglySorted R l2 ->
  (forall a b, In a l1 -> In b l2 -> R a b) ->
  StronglySorted R (l1 ++ l2).
Proof.
induction 1 as [|x l1 Hl IH Hx]; intros H2 Hc; [exact H2|].
cbn [app]. constructor.
- apply IH; [assumption|]. intros a b Ha Hb. apply Hc; [now right | assumption].
- apply Forall_app. split; [assumption|].
  apply List.Forall_forall. intros b Hb. apply Hc; [now left | assumption].
Qed.

Lemma StronglySorted_all {A : Type} (R : A -> A -> Prop) (l : list A) :
  (forall a b, In a l -> In b l -> R a b) -> StronglySorted R l.
Proof.
induction l as [|x l IH]; intros H; constructor.
- apply IH. intros a b Ha Hb. apply H; now right.
- apply List.Forall_forall. intros b Hb. apply H; [now left | now right].
Qed.

Section Blocks.
Variables weekName weekPath : string.
Variable children : list (string * node).

Let block := dayBlock weekName weekPath children.
Let key := fun d : string => dayOrder (FileSystemUtils.normalizeDay d).

Lemma block_categoryOrder (d : string) (f : ScreenshotFile.t) :
  In f (block d) -> categoryOrder f = key d.
Proof.
intros H. unfold categoryOrder, key. now rewrite (dayBlock_day _ _ _ _ _ H).
Qed.

Lemma blocks_In (ds : list string) (f : ScreenshotFile.t) :
  In f (flat_map block ds) -> exists d, In d ds /\ In f (block d).
Proof. rewrite in_flat_map. trivial. Qed.

(** The blocks of day directories in category order are in category
    order. *)
Lemma blocks_ascending (ds : list string) :
  ascending (byKey key) ds -> ascending (byKey categoryOrder) (flat_map block ds).
Proof.
unfold ascending. induction 1 as [|d ds Hs IH Hd]; [constructor|].
cbn [flat_map]. apply StronglySorted_app_intro; [|exact IH|].
- apply StronglySorted_all. intros a b Ha Hb.
  unfold leBy, byKey. rewrite (block_categoryOrder d a Ha), (block_categoryOrder d b Hb). lia.
- intros a b Ha Hb. apply blocks_In in Hb. destruct Hb as (d' & Hd' & Hb).
  rewrite List.Forall_forall in Hd. specialize (Hd d' Hd').
  unfold leBy, byKey in *.
  now rewrite (block_categoryOrder d a Ha), (block_categoryOrder d' b Hb).
Qed.

Lemma inCategory_block_same (d : string) : inCategory d (block d) = block d.
Proof.
unfold inCategory.
assert (H : forall f, In f (block d) -> ScreenshotFile.day f = d)
  by (intros f; apply dayBlock_day).
induction (block d) as [|f l IH]; [reflexivity|].
cbn [List.filter]. rewrite (H f (or_introl eq_refl)), String.eqb_refl.
f_equal. apply IH. intros; apply H; now right.
Qed.

Lemma inCategory_block_other (d d' : string) : d' <> d -> inCategory d (block d') = [].
Proof.
intros Hne. unfold inCategory.
assert (H : forall f, In f (block d') -> ScreenshotFile.day f = d')
  by (intros f; apply dayBlock_day).
induction (block d') as [|f l IH]; [reflexivity|].
cbn [List.filter]. rewrite (H f (or_introl eq_refl)).
destruct (String.eqb_spec d' d); [contradiction|].
apply IH. intros; apply H; now right.
Qed.

Lemma inCategory_blocks_absent (d : string) (ds : list string) :
  ~ In d ds -> inCategory d (flat_map block ds) = [].
Proof.
induction ds as [|d' ds IH]; intros Hn; [reflexivity|].
cbn [flat_map]. unfold inCategory in *. rewrite List.filter_app.
fold (inCategory d (block d')).
rewrite inCategory_block_other by (intros ->; apply Hn; now left).
apply IH. intros H; apply Hn; now right.
Qed.

(** The files of one category directory form one block, in file-name
    order. *)
Lemma inCategory_blocks (d : string) (ds : list string) :
  NoDup ds ->
  ascending compareStrings (map ScreenshotFile.fileName (inCategory d (flat_map block ds))).
Proof.
induction ds as [|d' ds IH]; intros Hnd; [constructor|].
apply NoDup_cons in Hnd. destruct Hnd as [Hd' Hnd].
cbn [flat_map]. unfold inCategory. rewrite List.filter_app.
fold (inCategory d (block d')). fold (inCategory d (flat_map block ds)).
destruct (string_dec d' d) as [->|Hne].
- rewrite inCategory_block_same, inCategory_blocks_absent
    by now rewrite <- list_elem_of_In.
  rewrite app_nil_r. apply dayBlock_names.
- rewrite inCategory_block_other by assumption. now apply IH.
Qed.

(** The files of one category directory stand together. *)
Lemma inCategory_blocks_contiguous (d : string) (ds : list string) :
  NoDup ds ->
  exists pre post,
    flat_map block ds = pre ++ inCategory d (flat_map block ds) ++ post
    /\ inCategory d pre = [] /\ inCategory d post = [].
Proof.
intros Hnd. destruct (in_dec string_dec d ds) as [Hin|Hout].
- apply in_split in Hin. destruct Hin as (l1 & l2 & ->).
  apply NoDup_app in Hnd. destruct Hnd as (_ & Hsep & Hnd2).
  apply NoDup_cons in Hnd2. destruct Hnd2 as [Hd2 _].
  assert (Hd1 : ~ In d l1).
  { intros Hin. apply (Hsep d); [now apply list_elem_of_In | left]. }
  rewrite list_elem_of_In in Hd2.
  exists (flat_map block l1), (flat_map block l2).
  rewrite flat_map_app. cbn [flat_map]. unfold inCategory at 1.
  rewrite !List.filter_app.
  fold (inCategory d (flat_map block l1)) (inCategory d (block d))
       (inCategory d (flat_map block l2)).
  rewrite (inCategory_blocks_absent d l1 Hd1), (inCategory_blocks_absent d l2 Hd2),
    inCategory_block_same.
  cbn [app]. rewrite app_nil_r.
  split; [reflexivity|]. split; reflexivity.
- exists (flat_map block ds), []. rewrite (inCategory_blocks_absent d ds Hout).
  cbn [app]. rewrite app_nil_r.
  split; [reflexivity|]. split; reflexivity.
Qed.

Lemma block_byCategoryThenName (d : string) :
  StronglySorted byCategoryThenName (block d).
Proof.
pose proof (dayBlock_names weekName weekPath children d) as Hn. fold block in Hn.
assert (H : forall f, In f (block d) -> categoryOrder f = key d)
  by (intros f; apply block_categoryOrder).
unfold ascending in Hn.
induction (block d) as [|f l IH]; [constructor|].
cbn [map] in Hn. inversion Hn as [|? ? Hl Hf]; subst.
constructor.
- apply IH; [assumption|]. intros; apply H; now right.
- apply List.Forall_forall. intros g Hg. right. split.
  + rewrite (H f (or_introl eq_refl)). symmetry. apply H. now right.
  + rewrite List.Forall_forall in Hf. apply compareStrings_le, Hf. now apply in_map.
Qed.

(** With the day directories in strictly increasing category order, the
    whole list is sorted by category order, then file name. *)
Lemma blocks_byCategoryThenName (ds : list string) :
  StronglySorted (fun a b => key a < key b) ds ->
  StronglySorted byCategoryThenName (flat_map block ds).
Proof.
induction 1 as [|d ds Hs IH Hd]; [constructor|].
cbn [flat_map]. apply StronglySorted_app_intro; [apply block_byCategoryThenName | exact IH|].
intros a b Ha Hb. apply blocks_In in Hb. destruct Hb as (d' & Hd' & Hb).
rewrite List.Forall_forall in Hd. specialize (Hd d' Hd').
left. now rewrite (block_categoryOrder d a Ha), (block_categoryOrder d' b Hb).
Qed.

End Blocks.

Lemma dayOrder_injective (a b : string) :
  In a DayOfWeek_values -> In b DayOfWeek_values -> dayOrder a = dayOrder b -> a = b.
Proof.
unfold DayOfWeek_values. cbn [In]. intros Ha Hb.
repeat (destruct Ha as [<-|Ha]; [|]); try contradiction;
  repeat (destruct Hb as [<-|Hb]; [|]); try contradiction;
  intros E; first [reflexivity | discriminate E].
Qed.

Lemma isDayDirectory_normalizeDay (d : string) :
  FileSystemUtils.isDayDirectory d = true ->
  In (FileSystemUtils.normalizeDay d) DayOfWeek_values.
Proof.
unfold FileSystemUtils.isDayDirectory. cbv zeta. fold (FileSystemUtils.normalizeDay d).
rewrite includesString_spec. apply list_elem_of_In.
Qed.

Lemma strictly_ascending_days (ds : list string) :
  ascending FileSystemUtils.compareDays ds ->
  (forall d, In d ds -> FileSystemUtils.isDayDirectory d = true) ->
  NoDup (map FileSystemUtils.normalizeDay ds) ->
  StronglySorted (fun a b => dayOrder (FileSystemUtils.normalizeDay a)
                             < dayOrder (FileSystemUtils.normalizeDay b)) ds.
Proof.
unfold ascending. induction 1 as [|d ds Hs IH Hd]; intros Hv Hnd; [constructor|].
cbn [map] in Hnd. apply NoDup_cons in Hnd. destruct Hnd as [Hx Hnd].
constructor.
- apply IH; [|assumption]. intros; apply Hv; now right.
- apply List.Forall_forall. intros d' Hd'.
  rewrite List.Forall_forall in Hd. specialize (Hd d' Hd').
  unfold leBy, FileSystemUtils.compareDays in Hd. cbv zeta in Hd.
  assert (Hne : dayOrder (FileSystemUtils.normalizeDay d)
                <> dayOrder (FileSystemUtils.normalizeDay d')); [|lia].
  intros E. apply dayOrder_injective in E.
  + apply Hx. rewrite E. apply list_elem_of_In, in_map. assumption.
  + apply isDayDirectory_normalizeDay, Hv. now left.
  + apply isDayDirectory_normalizeDay, Hv. now right.
Qed.

Lemma directoriesNamed_NoDup (accept : string -> bool) (children : list (string * node)) :
  NoDup (map fst children) -> NoDup (directoriesNamed accept children).
Proof.
unfold directoriesNamed. induction children as [|c cs IH]; intros Hnd; [constructor|].
cbn [map] in Hnd. apply NoDup_cons in Hnd. destruct Hnd as [Hx Hnd].
cbn [List.filter]. destruct (Fs.isDir (snd c) && accept (fst c)); [|auto].
cbn [map]. apply NoDup_cons. split; [|auto].
intros Hin. apply Hx. apply list_elem_of_In in Hin. apply list_elem_of_In.
apply in_map_iff in Hin. destruct Hin as (x & E & Hin).
apply filter_In in Hin. rewrite <- E. apply in_map. tauto.
Qed.

(** What the scan returns once the week directory is known. *)
Lemma scanScreenshotDirectory_blocks (inputPath : string) (rootNode : node)
  (weekPath : string) (size birthtime : Z) (children : list (string * node)) :
  FileSystemUtils.weekPathOf inputPath rootNode
  = Some (weekPath, Directory size birthtime children) ->
  NoDup (map fst children) ->
  directoriesNamed FileSystemUtils.isDayDirectory children <> [] ->
  FileSystemUtils.scanScreenshotDirectory inputPath (Some rootNode)
  = Ok (flat_map (dayBlock (Path.basename weekPath) weekPath children)
          (sort FileSystemUtils.compareDays
             (directoriesNamed FileSystemUtils.isDayDirectory children))).
Proof.
intros Hw Hnd Hne.
unfold FileSystemUtils.scanScreenshotDirectory, FileSystemUtils.scanBody.
rewrite Hw. unfold FileSystemUtils.getDayDirectories, Fs.readdirWithFileTypes.
cbn [bind]. rewrite directoriesNamed_dirents.
set (dirs := directoriesNamed FileSystemUtils.isDayDirectory children) in *.
set (dayDirs := sort FileSystemUtils.compareDays dirs).
assert (Hlen : (length dayDirs =? 0)%nat = false).
{ unfold dayDirs. rewrite sort_length. destruct dirs; [congruence | reflexivity]. }
rewrite Hlen.
rewrite scanDays_ok.
- cbn [bind]. f_equal.
  apply (sort_ascending_id (byKey categoryOrder)).
  apply blocks_ascending.
  apply (sort_ascending (byKey (fun d => dayOrder (FileSystemUtils.normalizeDay d))));
    [apply byKey_trans | apply byKey_total].
- intros d Hd. apply (proj1 (sort_In _ d dirs)) in Hd.
  apply directoriesNamed_In in Hd. destruct Hd as (n & Hin & Hdir & _).
  exists (d, n). split; [|exact Hdir].
  apply (find_fst_unique children (d, n) Hnd Hin).
Qed.

(** With [Monday] and [monday] side by side the files are not sorted by
    category order, then file name: both directories have order 1 and
    [c.png] of the first precedes [a.png] of the second. *)
Lemma scanScreenshotDirectory_case_twins :
  exists files,
    FileSystemUtils.scanScreenshotDirectory "shots/week1" (Some Sample.caseTwins) = Ok files
    /\ map ScreenshotFile.fileName files = ["c.png"; "a.png"]
    /\ map categoryOrder files = [1; 1]
    /\ ~ StronglySorted byCategoryThenName files.
Proof.
eexists. split; [vm_compute; reflexivity|]. split; [reflexivity|]. split; [reflexivity|].
intros H. inversion H as [|? ? _ Hf]; subst.
inversion Hf as [|? ? Hab _]; subst.
destruct Hab as [Hlt|[_ Hle]]; [vm_compute in Hlt; discriminate|].
apply Hle. reflexivity.
Qed.

Lemma ascending_lexLe (l : list string) :
  ascending compareStrings l -> StronglySorted lexLe l.
Proof.
unfold ascending. induction 1 as [|x l Hl IH Hx]; constructor; [exact IH|].
apply (List.Forall_impl _ (P := leBy compareStrings x)); [|exact Hx].
intros y Hy. now apply compareStrings_le.
Qed.

(** C7 (as amended).  For a tree whose week directory is found, lists
    each name once and has a category directory, the scan returns the
    located files in the fixed order of the categories; the files of each
    category directory stand together in the list, in lexical order of
    file name; and when no two category directories bear the same label up
    to letter case, the whole list is sorted by category order, then file
    name. *)
Theorem scanScreenshotDirectory_order (inputPath : string) (rootNode : node)
  (weekPath : string) (size birthtime : Z) (children : list (string * node)) :
  FileSystemUtils.weekPathOf inputPath rootNode
  = Some (weekPath, Directory size birthtime children) ->
  NoDup (map fst children) ->
  directoriesNamed FileSystemUtils.isDayDirectory children <> [] ->
  exists files,
    FileSystemUtils.scanScreenshotDirectory inputPath (Some rootNode) = Ok files
    /\ StronglySorted (fun a b => categoryOrder a <= categoryOrder b) files
    /\ (forall d, exists pre post,
          files = pre ++ inCategory d files ++ post
          /\ inCategory d pre = [] /\ inCategory d post = [])
    /\ (forall d, StronglySorted lexLe
                    (map ScreenshotFile.fileName (inCategory d files)))
    /\ (NoDup (map FileSystemUtils.normalizeDay
                   (directoriesNamed FileSystemUtils.isDayDirectory children)) ->
        StronglySorted byCategoryThenName files).
Proof.
intros Hw Hnd Hne. eexists.
split; [exact (scanScreenshotDirectory_blocks _ _ _ _ _ _ Hw Hnd Hne)|].
set (dirs := directoriesNamed FileSystemUtils.isDayDirectory children).
assert (Hasc : ascending FileSystemUtils.compareDays (sort FileSystemUtils.compareDays dirs)).
{ apply (sort_ascending (byKey (fun d => dayOrder (FileSystemUtils.normalizeDay d))));
    [apply byKey_trans | apply byKey_total]. }
assert (Hperm : Permutation (sort FileSystemUtils.compareDays dirs) dirs)
  by apply sort_perm.
assert (Hnd' : NoDup (sort FileSystemUtils.compareDays dirs))
  by (rewrite Hperm; now apply directoriesNamed_NoDup).
split; [|split; [|split]].
- pose proof (blocks_ascending (Path.basename weekPath) weekPath children _ Hasc) as Hb.
  unfold ascending in Hb.
  induction Hb as [|f l Hl IH Hf]; constructor; [exact IH|].
  apply (List.Forall_impl _ (P := leBy (byKey categoryOrder) f)); [|exact Hf].
  intros g Hg. unfold leBy, byKey in Hg. lia.
- intros d. now apply inCategory_blocks_contiguous.
- intros d. now apply ascending_lexLe, inCategory_blocks.
- intros Hlabels. apply blocks_byCategoryThenName.
  apply strictly_ascending_days; [exact Hasc | |].
  + intros d Hd. apply (proj1 (sort_In _ d dirs)) in Hd.
    apply directoriesNamed_In in Hd. destruct Hd as (n & _ & _ & Hd). exact Hd.
  + now rewrite Hperm.
Qed.

Lemma scanScreenshotDirectory_order_witness :
  FileSystemUtils.weekPathOf "shots/week1" Sample.plainWeek
  = Some ("shots/week1", Sample.plainWeek)
  /\ exists files,
       FileSystemUtils.scanScreenshotDirectory "shots/week1" (Some Sample.plainWeek)
       = Ok files
       /\ map (fun f => (ScreenshotFile.day f, ScreenshotFile.fileName f)) files
          = [("Monday", "k.PNG"); ("Monday", "z.jpg"); ("weekly", "a.png"); ("weekly", "b.png")]
       /\ StronglySorted byCategoryThenName files.
Proof.
split; [reflexivity|].
destruct (scanScreenshotDirectory_order "shots/week1" Sample.plainWeek "shots/week1" 4096 0
  [ ("weekly", Directory 4096 0 [("b.png", Sample.image); ("a.png", Sample.image)]);
    ("notes", Directory 4096 0 [("x.png", Sample.image)]);
    ("Monday", Directory 4096 0 [("z.jpg", Sample.image); ("readme.txt", Sample.image);
                                 ("k.PNG", Sample.image)]) ])
  as (files & Hs & _ & _ & _ & Hsorted).
- reflexivity.
- apply (bool_decide_unpack _). vm_compute. exact I.
- discriminate.
- exists files. split; [exact Hs|]. split.
  + assert (E : Ok files = FileSystemUtils.scanScreenshotDirectory "shots/week1"
                             (Some Sample.plainWeek)) by (symmetry; exact Hs).
    vm_compute in E. inversion E. reflexivity.
  + apply Hsorted. apply (bool_decide_unpack _). vm_compute. exact I.
Defined.

(** ** The aggregator and its input arrays *)

Section StoreFacts.
Import DataProcessorStore.

Lemma getEntries_insert_eq (h : store) (l : loc) (es : list RankingEntry) :
  getEntries (<[l := Entries es]> h) l = es.
Proof. unfold getEntries. now rewrite lookup_insert_eq. Qed.

Lemma getEntries_insert_ne (h : store) (l l' : loc) (o : object) :
  l <> l' -> getEntries (<[l := o]> h) l' = getEntries h l'.
Proof. intros H. unfold getEntries. now rewrite lookup_insert_ne. Qed.

Lemma getDays_insert_eq (h : store) (l : loc) (ds : list DayRef) :
  getDays (<[l := Days ds]> h) l = ds.
Proof. unfold getDays. now rewrite lookup_insert_eq. Qed.

Lemma getDays_insert_ne (h : store) (l l' : loc) (o : object) :
  l <> l' -> getDays (<[l := o]> h) l' = getDays h l'.
Proof. intros H. unfold getDays. now rewrite lookup_insert_ne. Qed.

(** [push] then [sort] on one array, as one update of the store. *)
Lemma sortEntries_pushEntries (l : loc) (new : list RankingEntry) (h : store) :
  sortEntries l (pushEntries l new h)
  = <[l := Entries (sort compareRank (getEntries h l ++ new))]> h.
Proof.
unfold sortEntries, pushEntries. rewrite getEntries_insert_eq. apply insert_insert_eq.
Qed.

Lemma ownsWeek_dom (h0 : store) (w : WeekRef) (h : store) (l : loc) :
  ownsWeek h0 w h -> l ∈ dom h0 -> l ∈ dom h.
Proof.
intros (Hframe & _) Hl. apply elem_of_dom. rewrite (Hframe l Hl). now apply elem_of_dom.
Qed.

Lemma ownsWeek_container (h0 : store) (w : WeekRef) (h : store) (l : loc) :
  ownsWeek h0 w h -> In l (containers h w) -> (l ∉ dom h0) /\ (l ∈ dom h).
Proof.
intros (_ & _ & Hall) Hl. rewrite List.Forall_forall in Hall. now apply Hall.
Qed.

(** Updating one of the week's entries arrays keeps the ownership. *)
Lemma ownsWeek_update_entries (h0 : store) (w : WeekRef) (h : store) (l : loc)
  (es : list RankingEntry) :
  ownsWeek h0 w h ->
  In l (weeklyDataRef w :: map entriesRef (getDays h (dailyDataRef w))) ->
  ownsWeek h0 w (<[l := Entries es]> h)
  /\ getDays (<[l := Entries es]> h) (dailyDataRef w) = getDays h (dailyDataRef w).
Proof.
intros Hown Hl.
assert (Hc : In l (containers h w)) by (right; exact Hl).
destruct (ownsWeek_container _ _ _ _ Hown Hc) as [Hl0 Hlh].
destruct Hown as (Hframe & Hnd & Hall).
assert (Hne : l <> dailyDataRef w).
{ unfold containers in Hnd. apply NoDup_cons in Hnd. destruct Hnd as [Hd _].
  intros ->. apply Hd. now apply list_elem_of_In. }
assert (Hdays : getDays (<[l := Entries es]> h) (dailyDataRef w)
                = getDays h (dailyDataRef w)) by now apply getDays_insert_ne.
split; [|exact Hdays]. split; [|split].
- intros l' Hl'. rewrite lookup_insert_ne by (intros ->; contradiction). now apply Hframe.
- unfold containers. rewrite Hdays. exact Hnd.
- unfold containers. rewrite Hdays. eapply List.Forall_impl; [|exact Hall].
  intros a [Ha0 Hah]. split; [assumption|].
  rewrite dom_insert_L. apply elem_of_union. now right.
Qed.

Lemma find_map_readDay (h : store) (name : string) (ds : list DayRef) :
  find (fun b => String.eqb (day b) name) (map (readDay h) ds)
  = option_map (readDay h) (find (fun d => String.eqb (dayName d) name) ds).
Proof.
induction ds as [|d ds IH]; [reflexivity|].
cbn [map find readDay day]. destruct (String.eqb (dayName d) name); [reflexivity | exact IH].
Qed.

Lemma map_readDay_insert_ne (h : store) (l : loc) (o : object) (ds : list DayRef) :
  ~ In l (map entriesRef ds) ->
  map (readDay (<[l := o]> h)) ds = map (readDay h) ds.
Proof.
intros Hn. apply map_ext_in. intros d Hd. unfold readDay.
rewrite getEntries_insert_ne; [reflexivity|].
intros ->. apply Hn. now apply in_map.
Qed.

(** Updating the array of the first day named [name] is the update of
    that day in the week read from the store. *)
Lemma map_readDay_update (h : store) (name : string)
  (f : list RankingEntry -> list RankingEntry) (ds : list DayRef) (d : DayRef) :
  NoDup (map entriesRef ds) ->
  find (fun d => String.eqb (dayName d) name) ds = Some d ->
  map (readDay (<[entriesRef d := Entries (f (getEntries h (entriesRef d)))]> h)) ds
  = DataProcessor.updateDay name f (map (readDay h) ds).
Proof.
induction ds as [|d0 ds IH]; intros Hnd F; [discriminate|].
cbn [map] in Hnd. apply NoDup_cons in Hnd. destruct Hnd as [Hd0 Hnd].
cbn [find] in F. cbn [map DataProcessor.updateDay readDay day entries].
destruct (String.eqb (dayName d0) name) eqn:E.
- inversion F; subst d0. f_equal.
  + unfold readDay. now rewrite getEntries_insert_eq.
  + apply map_readDay_insert_ne. now rewrite <- list_elem_of_In.
- rewrite IH by assumption. f_equal.
  unfold readDay. rewrite getEntries_insert_ne; [reflexivity|].
  intros El. apply Hd0. rewrite <- El. apply list_elem_of_In, in_map.
  now apply find_some in F.
Qed.

Lemma updateDay_app_none (name : string) (f : list RankingEntry -> list RankingEntry)
  (days : list DayData) (b : DayData) :
  find (fun x => String.eqb (day x) name) days = None ->
  day b = name ->
  DataProcessor.updateDay name f (days ++ [b])
  = days ++ [{| day := day b; entries := f (entries b) |}].
Proof.
intros F Hb. induction days as [|x days IH]; cbn [app DataProcessor.updateDay].
- now rewrite Hb, String.eqb_refl.
- cbn [find] in F. destruct (String.eqb (day x) name); [discriminate|].
  now rewrite IH.
Qed.

End StoreFacts.

Section StoreAggregation.
Import DataProcessorStore.

Lemma getEntries_frame (h0 h : store) (l : loc) :
  (forall l, l ∈ dom h0 -> h !! l = h0 !! l) -> l ∈ dom h0 ->
  getEntries h l = getEntries h0 l.
Proof. intros Hframe Hl. unfold getEntries. now rewrite (Hframe l Hl). Qed.

Lemma ownsWeek_weekly_not_day (h0 : store) (w : WeekRef) (h : store) :
  ownsWeek h0 w h -> ~ In (weeklyDataRef w) (map entriesRef (getDays h (dailyDataRef w))).
Proof.
intros (_ & Hnd & _). unfold containers in Hnd.
apply NoDup_cons in Hnd. destruct Hnd as [_ Hnd].
apply NoDup_cons in Hnd. destruct Hnd as [Hw _].
now rewrite <- list_elem_of_In.
Qed.

Lemma ownsWeek_days_NoDup (h0 : store) (w : WeekRef) (h : store) :
  ownsWeek h0 w h -> NoDup (map entriesRef (getDays h (dailyDataRef w))).
Proof.
intros (_ & Hnd & _). unfold containers in Hnd.
apply NoDup_cons in Hnd. destruct Hnd as [_ Hnd].
apply NoDup_cons in Hnd. tauto.
Qed.

(** A weekly result changes the week's weekly array and nothing else. *)
Lemma addResult_store_weekly (h0 h : store) (w : WeekRef) (r : ResultRef) :
  ownsWeek h0 w h ->
  let h' := sortEntries (weeklyDataRef w)
              (pushEntries (weeklyDataRef w) (getEntries h (extractedRef r)) h) in
  ownsWeek h0 w h'
  /\ (extractedRef r ∈ dom h0 ->
      readWeek h' w
      = setWeeklyData (readWeek h w)
          (sort compareRank (weeklyData (readWeek h w) ++ getEntries h0 (extractedRef r)))).
Proof.
intros Hown h'. subst h'. rewrite sortEntries_pushEntries.
destruct (ownsWeek_update_entries h0 w h (weeklyDataRef w)
            (sort compareRank
               (getEntries h (weeklyDataRef w) ++ getEntries h (extractedRef r)))
            Hown (or_introl eq_refl)) as [Hown' Hdays].
split; [exact Hown'|]. intros Hx.
unfold readWeek, setWeeklyData.
cbn [weekNumber weekDate dailyData weeklyData].
rewrite Hdays, getEntries_insert_eq.
rewrite map_readDay_insert_ne by now apply (ownsWeek_weekly_not_day h0).
now rewrite (getEntries_frame h0 h (extractedRef r) (proj1 Hown) Hx).
Qed.

(** A daily result whose day exists changes that day's array and nothing
    else. *)
Lemma addResult_store_found (h0 h : store) (w : WeekRef) (r : ResultRef)
  (name : string) (d : DayRef) :
  ownsWeek h0 w h ->
  find (fun d => String.eqb (dayName d) name) (getDays h (dailyDataRef w)) = Some d ->
  let new :=
    List.filter
      (fun e => negb (bool_decide
                        (rank e ∈ (list_to_set (map rank (getEntries h (entriesRef d)))
                                   : gset Z))))
      (getEntries h (extractedRef r)) in
  let h' := sortEntries (entriesRef d) (pushEntries (entriesRef d) new h) in
  ownsWeek h0 w h'
  /\ (extractedRef r ∈ dom h0 ->
      readWeek h' w
      = setDailyData (readWeek h w)
          (DataProcessor.updateDay name
             (fun es => DataProcessor.mergeEntries es (getEntries h0 (extractedRef r)))
             (dailyData (readWeek h w)))).
Proof.
intros Hown F new h'. subst h' new. rewrite sortEntries_pushEntries.
assert (Hin : In (entriesRef d) (map entriesRef (getDays h (dailyDataRef w))))
  by (apply in_map; now apply find_some in F).
match goal with |- context [<[_ := Entries ?es]> h] =>
  destruct (ownsWeek_update_entries h0 w h (entriesRef d) es Hown (or_intror Hin))
    as [Hown' Hdays]
end.
split; [exact Hown'|]. intros Hx.
unfold readWeek, setDailyData.
cbn [weekNumber weekDate dailyData weeklyData].
rewrite Hdays.
rewrite getEntries_insert_ne
  by (intros E; apply (ownsWeek_weekly_not_day h0 w h Hown); now rewrite <- E).
f_equal.
rewrite (getEntries_frame h0 h (extractedRef r) (proj1 Hown) Hx).
apply (map_readDay_update h name
         (fun es => DataProcessor.mergeEntries es (getEntries h0 (extractedRef r)))).
- now apply (ownsWeek_days_NoDup h0).
- exact F.
Qed.

(** A daily result whose day is new allocates the day's array, pushes the
    day and fills the array; nothing that existed changes. *)
Lemma addResult_store_new (h0 h : store) (w : WeekRef) (r : ResultRef) (name : string) :
  ownsWeek h0 w h ->
  find (fun d => String.eqb (dayName d) name) (getDays h (dailyDataRef w)) = None ->
  let l := fresh (dom h) in
  let d := {| dayName := name; entriesRef := l |} in
  let h2 := pushDay (dailyDataRef w) d (<[l := Entries []]> h) in
  let new :=
    List.filter
      (fun e => negb (bool_decide
                        (rank e ∈ (list_to_set (map rank (getEntries h2 (entriesRef d)))
                                   : gset Z))))
      (getEntries h2 (extractedRef r)) in
  let h' := sortEntries (entriesRef d) (pushEntries (entriesRef d) new h2) in
  ownsWeek h0 w h'
  /\ (extractedRef r ∈ dom h0 ->
      readWeek h' w
      = setDailyData (readWeek h w)
          (DataProcessor.updateDay name
             (fun es => DataProcessor.mergeEntries es (getEntries h0 (extractedRef r)))
             (dailyData (readWeek h w) ++ [{| day := name; entries := [] |}]))).
Proof.
intros Hown F l d h2 new h'.
assert (Hfresh : l ∉ dom h) by apply is_fresh.
assert (Hdl : (dailyDataRef w ∉ dom h0) /\ (dailyDataRef w ∈ dom h))
  by (apply (ownsWeek_container h0 w h); [assumption | now left]).
assert (Hwl : (weeklyDataRef w ∉ dom h0) /\ (weeklyDataRef w ∈ dom h))
  by (apply (ownsWeek_container h0 w h); [assumption | right; now left]).
assert (Hl_dl : l <> dailyDataRef w) by (intros E; apply Hfresh; rewrite E; tauto).
assert (Hl_wl : l <> weeklyDataRef w) by (intros E; apply Hfresh; rewrite E; tauto).
assert (Hl_days : ~ In l (map entriesRef (getDays h (dailyDataRef w)))).
{ intros Hin. apply Hfresh.
  apply (ownsWeek_container h0 w h l Hown). right. now right. }
assert (Hl0 : l ∉ dom h0) by (intros Hin; apply Hfresh; now apply (ownsWeek_dom h0 w)).
assert (Hdays1 : getDays (<[l := Entries []]> h) (dailyDataRef w)
                 = getDays h (dailyDataRef w)) by now apply getDays_insert_ne.
assert (Eh2 : h2 = <[dailyDataRef w := Days (getDays h (dailyDataRef w) ++ [d])]>
                     (<[l := Entries []]> h))
  by (subst h2; unfold pushDay; now rewrite Hdays1).
assert (Eex : getEntries h2 (entriesRef d) = []).
{ rewrite Eh2. cbn [entriesRef d].
  rewrite getEntries_insert_ne by congruence. apply getEntries_insert_eq. }
subst h' new. rewrite sortEntries_pushEntries. rewrite Eex. cbn [entriesRef d app].
match goal with |- context [<[l := Entries ?x]> h2] => set (es := x) end.
assert (Hdays3 : getDays (<[l := Entries es]> h2) (dailyDataRef w)
                 = getDays h (dailyDataRef w) ++ [d]).
{ rewrite getDays_insert_ne by assumption. rewrite Eh2. apply getDays_insert_eq. }
destruct Hown as (Hframe & Hnd & Hall).
split; [split; [|split]|].
- intros l' Hl'.
  rewrite lookup_insert_ne by (intros E; apply Hl0; now rewrite E).
  rewrite Eh2.
  rewrite lookup_insert_ne by (intros E; apply (proj1 Hdl); now rewrite E).
  rewrite lookup_insert_ne by (intros E; apply Hl0; now rewrite E).
  now apply Hframe.
- unfold containers in *. rewrite Hdays3, map_app. cbn [map entriesRef d].
  change (dailyDataRef w :: weeklyDataRef w
            :: map entriesRef (getDays h (dailyDataRef w)) ++ [l])
    with ((dailyDataRef w :: weeklyDataRef w
             :: map entriesRef (getDays h (dailyDataRef w))) ++ [l]).
  rewrite <- Permutation_cons_append. apply NoDup_cons. split; [|exact Hnd].
  rewrite list_elem_of_In. cbn [In].
  intros [E|[E|E]]; [congruence | congruence | contradiction].
- unfold containers in *. rewrite Hdays3, map_app. cbn [map entriesRef d].
  change (dailyDataRef w :: weeklyDataRef w
            :: map entriesRef (getDays h (dailyDataRef w)) ++ [l])
    with ((dailyDataRef w :: weeklyDataRef w
             :: map entriesRef (getDays h (dailyDataRef w))) ++ [l]).
  apply Forall_app. split.
  + eapply List.Forall_impl; [|exact Hall].
    intros a [Ha0 Hah]. split; [assumption|].
    rewrite dom_insert_L, Eh2, !dom_insert_L. rewrite !elem_of_union. tauto.
  + constructor; [|constructor]. split; [assumption|].
    rewrite dom_insert_L. apply elem_of_union. left. now apply elem_of_singleton.
- intros Hx.
  assert (Hx_h : extractedRef r ∈ dom h)
    by (apply elem_of_dom; rewrite (Hframe _ Hx); now apply elem_of_dom).
  assert (Ex : getEntries h2 (extractedRef r) = getEntries h0 (extractedRef r)).
  { rewrite Eh2.
    rewrite getEntries_insert_ne by (intros E; apply (proj1 Hdl); now rewrite E).
    rewrite getEntries_insert_ne by (intros E; apply Hfresh; now rewrite E).
    now apply getEntries_frame. }
  unfold readWeek, setDailyData.
  cbn [weekNumber weekDate dailyData weeklyData].
  rewrite Hdays3.
  rewrite getEntries_insert_ne by assumption.
  assert (Hdw : dailyDataRef w <> weeklyDataRef w).
  { intros E. apply NoDup_cons in Hnd. destruct Hnd as [Hnd _].
    apply Hnd. rewrite list_elem_of_In. left. now symmetry. }
  rewrite Eh2.
  rewrite getEntries_insert_ne by assumption.
  rewrite getEntries_insert_ne by assumption.
  f_equal.
  rewrite updateDay_app_none;
    [|rewrite find_map_readDay, F; reflexivity | reflexivity].
  rewrite map_app. f_equal.
  + rewrite map_readDay_insert_ne by assumption.
    rewrite map_readDay_insert_ne.
    * now apply map_readDay_insert_ne.
    * intros Hin. apply NoDup_cons in Hnd. destruct Hnd as [Hnd _].
      apply Hnd. rewrite list_elem_of_In. now right.
  + unfold readDay. subst d. cbn [map dayName entriesRef].
    rewrite getEntries_insert_eq. subst es. rewrite Ex. reflexivity.
Qed.

(** One step of the loop: the week keeps owning its arrays, and read from
    the store it is the step of the aggregator on values. *)
Lemma addResult_store_step (h0 h : store) (w : WeekRef) (r : ResultRef) :
  ownsWeek h0 w h ->
  ownsWeek h0 w (addResultToWeekData w r h)
  /\ (extractedRef r ∈ dom h0 ->
      readWeek (addResultToWeekData w r h) w
      = DataProcessor.addResultToWeekData (readWeek h w) (readResult h0 r)).
Proof.
intros Hown.
unfold addResultToWeekData, DataProcessor.addResultToWeekData.
cbn [readResult file extracted].
destruct (String.eqb _ DayOfWeek_WEEKLY).
- exact (addResult_store_weekly h0 h w r Hown).
- change (dailyData (readWeek h w)) with (map (readDay h) (getDays h (dailyDataRef w))).
  rewrite find_map_readDay.
  destruct (find _ (getDays h (dailyDataRef w))) as [d|] eqn:F.
  + exact (addResult_store_found h0 h w r _ d Hown F).
  + exact (addResult_store_new h0 h w r _ Hown F).
Qed.

Lemma fold_addResult_store (h0 : store) (w : WeekRef) (rs : list ResultRef) (h : store) :
  ownsWeek h0 w h ->
  ownsWeek h0 w (fold_left (fun h r => addResultToWeekData w r h) rs h)
  /\ ((forall r, In r rs -> extractedRef r ∈ dom h0) ->
      readWeek (fold_left (fun h r => addResultToWeekData w r h) rs h) w
      = fold_left DataProcessor.addResultToWeekData (map (readResult h0) rs)
          (readWeek h w)).
Proof.
revert h. induction rs as [|r rs IH]; intros h Hown; [now split|].
cbn [fold_left map].
destruct (addResult_store_step h0 h w r Hown) as [Hown' Hread].
destruct (IH _ Hown') as [Hown'' Hread'].
split; [exact Hown''|]. intros Hall.
rewrite Hread' by (intros; apply Hall; now right).
rewrite Hread by (apply Hall; now left). reflexivity.
Qed.

Lemma map_sort {A B : Type} (f : A -> B) (cmpA : A -> A -> Z) (cmpB : B -> B -> Z)
  (l : list A) :
  (forall a b, cmpA a b = cmpB (f a) (f b)) ->
  map f (sort cmpA l) = sort cmpB (map f l).
Proof.
intros Hc. induction l as [|x l IH]; [reflexivity|].
cbn [sort map]. rewrite <- IH. clear IH.
induction (sort cmpA l) as [|y s IHs]; [reflexivity|].
cbn [insertSorted map]. rewrite <- Hc.
destruct (cmpA x y <=? 0); cbn [map]; [reflexivity | now rewrite IHs].
Qed.

(** The final sort of the days permutes the day objects in their array. *)
Lemma sortDays_store (h0 h : store) (w : WeekRef) :
  ownsWeek h0 w h ->
  ownsWeek h0 w (sortDays (dailyDataRef w) h)
  /\ readWeek (sortDays (dailyDataRef w) h) w
     = setDailyData (readWeek h w)
         (DataProcessor.sortDailyData (dailyData (readWeek h w))).
Proof.
intros Hown. pose proof Hown as (Hframe & Hnd & Hall).
set (cmp := fun a b : DayRef => dayOrder (dayName a) - dayOrder (dayName b)).
assert (Hdays : getDays (sortDays (dailyDataRef w) h) (dailyDataRef w)
                = sort cmp (getDays h (dailyDataRef w)))
  by (unfold sortDays; apply getDays_insert_eq).
assert (Hperm : Permutation
                  (dailyDataRef w :: weeklyDataRef w
                     :: map entriesRef (sort cmp (getDays h (dailyDataRef w))))
                  (containers h w)).
{ unfold containers. do 2 apply perm_skip. apply Permutation_map, sort_perm. }
assert (Hdl : (dailyDataRef w ∉ dom h0) /\ (dailyDataRef w ∈ dom h))
  by (apply (ownsWeek_container h0 w h); [assumption | now left]).
assert (Hdw : dailyDataRef w <> weeklyDataRef w).
{ intros E. unfold containers in Hnd. apply NoDup_cons in Hnd. destruct Hnd as [Hnd _].
  apply Hnd. rewrite list_elem_of_In. left. now symmetry. }
split; [split; [|split]|].
- intros l Hl. unfold sortDays.
  rewrite lookup_insert_ne by (intros E; apply (proj1 Hdl); now rewrite E).
  now apply Hframe.
- unfold containers at 1. rewrite Hdays, Hperm. exact Hnd.
- unfold containers at 1. rewrite Hdays.
  apply List.Forall_forall. intros l Hl. apply (Permutation_in _ Hperm) in Hl.
  rewrite List.Forall_forall in Hall. destruct (Hall l Hl) as [Hl0 Hlh].
  split; [assumption|]. unfold sortDays. rewrite dom_insert_L.
  apply elem_of_union. now right.
- unfold readWeek, setDailyData. cbn [weekNumber weekDate dailyData weeklyData].
  rewrite Hdays. unfold sortDays at 2.
  rewrite getEntries_insert_ne by assumption. f_equal.
  unfold DataProcessor.sortDailyData.
  rewrite <- (map_sort (readDay h) cmp) by reflexivity.
  apply map_ext_in. intros d Hd. unfold readDay, sortDays.
  rewrite getEntries_insert_ne; [reflexivity|].
  intros E.
  assert (Hin : In (entriesRef d) (map entriesRef (getDays h (dailyDataRef w))))
    by (apply in_map; now apply (proj1 (sort_In cmp d _))).
  rewrite <- E in Hin.
  unfold containers in Hnd. apply NoDup_cons in Hnd. destruct Hnd as [Hnd _].
  apply Hnd. rewrite list_elem_of_In. now right.
Qed.

(** The two arrays allocated for the new week. *)
Lemma ownsWeek_init (h0 : store) (number : Z) (date : string) :
  let daily := fresh (dom h0) in
  let h1 := <[daily := Days []]> h0 in
  let weekly := fresh (dom h1) in
  let h2 := <[weekly := Entries []]> h1 in
  let w := {| weekNumberOf := number; weekDateOf := date;
              dailyDataRef := daily; weeklyDataRef := weekly |} in
  ownsWeek h0 w h2
  /\ readWeek h2 w
     = {| weekNumber := number; weekDate := date; dailyData := []; weeklyData := [] |}.
Proof.
intros daily h1 weekly h2 w.
assert (Hd : daily ∉ dom h0) by apply is_fresh.
assert (Hw : weekly ∉ dom h1) by apply is_fresh.
assert (Hdom1 : dom h1 = {[daily]} ∪ dom h0) by apply dom_insert_L.
assert (Hwd : weekly <> daily).
{ intros E. apply Hw. rewrite Hdom1, E. apply elem_of_union. left.
  now apply elem_of_singleton. }
assert (Hw0 : weekly ∉ dom h0).
{ intros Hin. apply Hw. rewrite Hdom1. apply elem_of_union. now right. }
assert (Hdays : getDays h2 daily = []).
{ subst h2 h1. rewrite getDays_insert_ne by assumption. apply getDays_insert_eq. }
split; [split; [|split]|].
- intros l Hl. subst h2 h1.
  rewrite lookup_insert_ne by (intros E; apply Hw0; now rewrite E).
  now rewrite lookup_insert_ne by (intros E; apply Hd; now rewrite E).
- unfold containers. cbn [dailyDataRef weeklyDataRef w]. rewrite Hdays. cbn [map].
  apply NoDup_cons. split; [|apply NoDup_singleton].
  rewrite list_elem_of_In. cbn [In]. intros [E|[]]. congruence.
- unfold containers. cbn [dailyDataRef weeklyDataRef w]. rewrite Hdays. cbn [map].
  assert (Hdom2 : dom h2 = {[weekly]} ∪ dom h1) by apply dom_insert_L.
  repeat constructor; try assumption; rewrite Hdom2, Hdom1, !elem_of_union,
    !elem_of_singleton; tauto.
- unfold readWeek. cbn [weekNumberOf weekDateOf dailyDataRef weeklyDataRef w].
  rewrite Hdays. subst h2. now rewrite getEntries_insert_eq.
Qed.

Lemma filter_success_readResult (h : store) (rs : list ResultRef) :
  List.filter success (map (readResult h) rs)
  = map (readResult h) (List.filter successOf rs).
Proof.
induction rs as [|r rs IH]; [reflexivity|].
cbn [map List.filter readResult success].
destruct (successOf r); cbn [map]; now rewrite IH.
Qed.

Lemma firstWeekName_readResult (h : store) (rs : list ResultRef) :
  DataProcessor.firstWeekName (map (readResult h) rs) = firstWeekName rs.
Proof. destruct rs; reflexivity. Qed.

(** C10.  The aggregator run on a store [h] leaves every array of [h] as
    it was: each input entry reads after the call as before it, its
    record sequence included, element by element and in order.  The week
    it returns holds arrays of its own, pairwise distinct and none of them
    an array of [h]; pushing onto them and sorting them is all the call
    does to the store.  Read from the final store, the outcome is the
    outcome of the aggregator on the values the inputs held. *)
Theorem processResults_preserves_input (tz : JsDate.TimeZone) (now : string)
  (results : list ResultRef) (h : store) :
  let out := processResults tz now results h in
  (forall l, l ∈ dom h -> snd out !! l = h !! l)
  /\ (forall r, In r results -> extractedRef r ∈ dom h ->
        readResult (snd out) r = readResult h r)
  /\ (forall x w, fst out = Ok x -> In w (weeksOf x) ->
        NoDup (containers (snd out) w)
        /\ Forall (fun l => l ∉ dom h) (containers (snd out) w))
  /\ ((forall r, In r results -> extractedRef r ∈ dom h) ->
      match fst out with
      | Ok x =>
          DataProcessor.processResults tz now (map (readResult h) results)
          = Ok (readExtracted (snd out) x)
      | Throw e =>
          DataProcessor.processResults tz now (map (readResult h) results) = Throw e
      end).
Proof.
intros out.
assert (Hmain :
  (forall l, l ∈ dom h -> snd out !! l = h !! l)
  /\ (forall x w, fst out = Ok x -> In w (weeksOf x) ->
        NoDup (containers (snd out) w)
        /\ Forall (fun l => l ∉ dom h) (containers (snd out) w))
  /\ ((forall r, In r results -> extractedRef r ∈ dom h) ->
      match fst out with
      | Ok x =>
          DataProcessor.processResults tz now (map (readResult h) results)
          = Ok (readExtracted (snd out) x)
      | Throw e =>
          DataProcessor.processResults tz now (map (readResult h) results) = Throw e
      end)).
{ subst out. unfold processResults, DataProcessor.processResults.
  rewrite filter_success_readResult, length_map, firstWeekName_readResult.
  destruct (length (List.filter successOf results) =? 0)%nat.
  { cbn [fst snd]. split; [trivial|]. split; [discriminate | trivial]. }
  destruct (DataProcessor.calculateWeekStartDate tz _) as [date|e].
  2:{ cbn [fst snd bind]. split; [trivial|]. split; [discriminate | trivial]. }
  unfold alloc. cbn [fst snd bind dailyDataRef weeklyDataRef].
  set (number := DataProcessor.extractWeekNumber _).
  destruct (ownsWeek_init h number date) as [Hinit Rinit]. cbv zeta in Hinit, Rinit.
  set (w := {| weekNumberOf := number; weekDateOf := date;
               dailyDataRef := fresh (dom h);
               weeklyDataRef := fresh (dom (<[fresh (dom h) := Days []]> h)) |}) in *.
  set (h2 := <[weeklyDataRef w := Entries []]> (<[dailyDataRef w := Days []]> h)) in *.
  destruct (fold_addResult_store h w (List.filter successOf results) h2 Hinit)
    as [Hfold Rfold].
  destruct (sortDays_store h _ w Hfold) as [Hsort Rsort].
  split; [exact (proj1 Hsort)|]. split.
  - intros x w' E Hin. inversion E; subst x. destruct Hin as [<-|[]].
    destruct Hsort as (_ & Hnd & Hall).
    split; [exact Hnd|]. eapply List.Forall_impl; [|exact Hall]. simpl. tauto.
  - intros Hin. unfold readExtracted. cbn [weeksOf metadataOf map]. do 3 f_equal.
    symmetry. etransitivity; [exact Rsort|].
    assert (Rinit' : readWeek h2 w
                     = {| weekNumber := number; weekDate := date;
                          dailyData := []; weeklyData := [] |}) by exact Rinit.
    rewrite Rfold, Rinit'; [reflexivity|].
    intros r Hr. apply filter_In in Hr. apply Hin. tauto. }
destruct Hmain as (Hframe & Hown & Hread).
split; [exact Hframe|]. split; [|split; assumption].
intros r _ Hr. unfold readResult. f_equal. now apply getEntries_frame.
Qed.

End StoreAggregation.

Lemma processResults_preserves_input_witness :
  (forall r, In r Sample.refResults ->
     DataProcessorStore.extractedRef r ∈ dom Sample.refStore)
  /\ (forall r, In r Sample.refResults ->
        DataProcessorStore.readResult
          (snd (DataProcessorStore.processResults Sample.utc "now"
                  Sample.refResults Sample.refStore)) r
        = DataProcessorStore.readResult Sample.refStore r)
  /\ exists x,
       fst (DataProcessorStore.processResults Sample.utc "now"
              Sample.refResults Sample.refStore) = Ok x
       /\ DataProcessor.processResults Sample.utc "now"
            (map (DataProcessorStore.readResult Sample.refStore) Sample.refResults)
          = Ok (DataProcessorStore.readExtracted
                  (snd (DataProcessorStore.processResults Sample.utc "now"
                          Sample.refResults Sample.refStore)) x).
Proof.
assert (Hin : forall r, In r Sample.refResults ->
                DataProcessorStore.extractedRef r ∈ dom Sample.refStore).
{ intros r [<-|[<-|[]]]; apply elem_of_dom; eexists; vm_compute; reflexivity. }
destruct (processResults_preserves_input Sample.utc "now" Sample.refResults
            Sample.refStore) as (_ & Hsame & _ & Hread).
split; [exact Hin|]. split.
- intros r Hr. apply Hsame; [exact Hr | now apply Hin].
- specialize (Hread Hin).
  destruct (fst (DataProcessorStore.processResults Sample.utc "now"
                   Sample.refResults Sample.refStore)) as [x|e] eqn:E.
  + exists x. split; [reflexivity | exact Hread].
  + vm_compute in E. discriminate E.
Defined.
